(** * Budget decomposition (solution.py): embedding and verification

    The program decides whether a budget, split over subjects, can be
    written as a citizen-by-subject matrix in which every citizen holds an
    equal share spent only on subjects the citizen endorses.

    Modelling choices.
    - Python numbers (ints and floats) are exact rationals [Q]; comparison
      of results is up to [Qeq].  Rounding of binary floating point is not
      modelled there; the tolerance [1e-9] is the rational 1/10^9.
      Statements that need exactness say so.  Module [Float64] is the
      same program over IEEE 754 binary64 numbers and shows where
      rounding changes the outcome.  Budgets are floats: the
      [OverflowError] of a true division of ints beyond the float range
      is not modelled.
    - A Python [set] of ints is the list of its elements in iteration
      order (no duplicates): [next(iter(s))] is the head of that list and
      a [for] loop over the set walks the list.
    - Subject indices are natural numbers; an index past the end of a list
      raises [IndexError] as in Python.  Module [IntSubjects] is the same
      program with arbitrary Python ints as subjects (a negative int
      indexes a list from its end) and coincides with the first embedding
      on non-negative subjects ([int_subjects_agree]).
    - Python exceptions are the [Raise] outcomes of the [result] monad;
      the "no solution" sentinel [None] is [Ok None].
    - In-place mutation of the decomposition matrix is state passing: the
      functions that mutate it return the new matrix. *)

From Stdlib Require Import List Sorted Arith ZArith QArith Qabs Bool Lia Lqa.
From Stdlib Require Import Uint63 PrimFloat.
Import ListNotations.

Set Implicit Arguments.

(** ** Exceptions and the result monad *)

Inductive exn : Type :=
| IndexError
| StopIteration.

Inductive result (A : Type) : Type :=
| Ok (a : A)
| Raise (e : exn).

Arguments Ok {A} a.
Arguments Raise {A} e.

Definition bind {A B : Type} (c : result A) (k : A -> result B) : result B :=
  match c with
  | Ok a => k a
  | Raise e => Raise e
  end.

Notation "x <- c ;; k" := (bind c (fun x => k))
  (at level 61, c at next level, right associativity).

(** ** Python lists and sets *)

(** [l[i]] as an expression. *)
Definition index {A : Type} (l : list A) (i : nat) : result A :=
  match nth_error l i with
  | Some a => Ok a
  | None => Raise IndexError
  end.

Fixpoint upd {A : Type} (l : list A) (i : nat) (a : A) : list A :=
  match l, i with
  | [], _ => []
  | _ :: t, O => a :: t
  | h :: t, S i' => h :: upd t i' a
  end.

(** [l[i] = a] as a statement. *)
Definition store {A : Type} (l : list A) (i : nat) (a : A) : result (list A) :=
  if i <? length l then Ok (upd l i a) else Raise IndexError.

Definition pyset : Type := list nat.

(** [x in s] *)
Definition mem (x : nat) (s : pyset) : bool := existsb (Nat.eqb x) s.

(** [next(iter(s))] *)
Definition next_iter (s : pyset) : result nat :=
  match s with
  | [] => Raise StopIteration
  | x :: _ => Ok x
  end.

Definition matrix : Type := list (list Q).

(** ** Python arithmetic on exact rationals *)

(** [sum(l)]: a left fold starting from 0. *)
Definition sum (l : list Q) : Q := fold_left Qplus l 0.

Definition Qlt_bool (x y : Q) : bool := negb (Qle_bool y x).

(** [min(a, b)] returns [b] only when [b < a]. *)
Definition py_min (a b : Q) : Q := if Qlt_bool b a then b else a.

Definition tolerance : Q := 1 # 1000000000.

Definition of_nat (n : nat) : Q := inject_Z (Z.of_nat n).

(** ** The program *)

Definition calculate_total_budget_and_share (budget : list Q) (n : nat) : Q * Q :=
  let total_budget := sum budget in
  let share_per_citizen := if Nat.eqb n 0 then 0 else total_budget / of_nat n in
  (total_budget, share_per_citizen).

(** The list comprehension of [find_interested_citizens] over a range. *)
Fixpoint interested_in (preferences : list pyset) (subject_index : nat)
  (range : list nat) : result (list nat) :=
  match range with
  | [] => Ok []
  | i :: range' =>
      p <- index preferences i ;;
      rest <- interested_in preferences subject_index range' ;;
      Ok (if mem subject_index p then i :: rest else rest)
  end.

Definition find_interested_citizens (preferences : list pyset)
  (subject_index n : nat) : result (list nat) :=
  interested_in preferences subject_index (seq 0 n).

(** [sum(share_per_citizen - sum(decomposition[i]) for i in interested_citizens)],
    the accumulator starting at 0. *)
Fixpoint total_possible (share_per_citizen : Q) (decomposition : matrix)
  (interested_citizens : list nat) (acc : Q) : result Q :=
  match interested_citizens with
  | [] => Ok acc
  | i :: rest =>
      r <- index decomposition i ;;
      total_possible share_per_citizen decomposition rest
        (acc + (share_per_citizen - sum r))
  end.

(** The [for i in interested_citizens] loop of [allocate_budget_for_subject];
    the loop state is the remaining [subject_budget] and the matrix.  The
    row object [decomposition[i]] is looked up once and mutated in place:
    [upd decomposition i r'] is the matrix that holds the mutated row. *)
Fixpoint allocate_loop (subject_index : nat) (share_per_citizen : Q)
  (interested_citizens : list nat) (subject_budget : Q)
  (decomposition : matrix) : result matrix :=
  match interested_citizens with
  | [] => Ok decomposition
  | i :: rest =>
      if Qle_bool subject_budget 0 then Ok decomposition
      else
        r <- index decomposition i ;;
        let max_possible_allocation := share_per_citizen - sum r in
        let possible_allocation := py_min max_possible_allocation subject_budget in
        old <- index r subject_index ;;
        r' <- store r subject_index (old + possible_allocation) ;;
        allocate_loop subject_index share_per_citizen rest
          (subject_budget - possible_allocation) (upd decomposition i r')
  end.

Definition allocate_budget_for_subject (budget : list Q) (preferences : list pyset)
  (subject_index : nat) (share_per_citizen : Q) (decomposition : matrix)
  : result (bool * matrix) :=
  subject_budget <- index budget subject_index ;;
  interested_citizens <-
    find_interested_citizens preferences subject_index (length preferences) ;;
  if (Nat.eqb (length interested_citizens) 0 && Qlt_bool 0 subject_budget)%bool
  then Ok (false, decomposition)
  else
    total_possible_share <-
      total_possible share_per_citizen decomposition interested_citizens 0 ;;
    if Qlt_bool total_possible_share subject_budget
    then Ok (false, decomposition)
    else
      decomposition' <-
        allocate_loop subject_index share_per_citizen interested_citizens
          subject_budget decomposition ;;
      Ok (true, decomposition').

Definition verify_allocation (decomposition : matrix) (share_per_citizen : Q) : bool :=
  forallb (fun allocation =>
             Qlt_bool (Qabs (sum allocation - share_per_citizen)) tolerance)
    decomposition.

(** Inner loop of [is_basic_case_func]: one citizen's preferences. *)
Fixpoint count_citizen (citizen_preferences : pyset)
  (subjects_interested_count : list nat) : result (list nat) :=
  match citizen_preferences with
  | [] => Ok subjects_interested_count
  | preferred_subject :: rest =>
      c <- index subjects_interested_count preferred_subject ;;
      counts' <- store subjects_interested_count preferred_subject (c + 1)%nat ;;
      count_citizen rest counts'
  end.

(** Outer loop of [is_basic_case_func]. *)
Fixpoint count_all (preferences : list pyset)
  (subjects_interested_count : list nat) : result (list nat) :=
  match preferences with
  | [] => Ok subjects_interested_count
  | citizen_preferences :: rest =>
      counts' <- count_citizen citizen_preferences subjects_interested_count ;;
      count_all rest counts'
  end.

Definition is_basic_case_func (budget : list Q) (preferences : list pyset)
  : result bool :=
  let num_subjects := length budget in
  subjects_interested_count <- count_all preferences (repeat 0%nat num_subjects) ;;
  let has_unique_preferences := forallb (fun count => Nat.eqb count 1) subjects_interested_count in
  let has_sufficient_budget := Qle_bool (of_nat (length preferences)) (sum budget) in
  Ok (has_unique_preferences && has_sufficient_budget)%bool.

(** [[[0 for _ in range(s)] for _ in range(n)]] *)
Definition zeros (n s : nat) : matrix := repeat (repeat 0 s) n.

(** The loop of [calc_decomposition_for_basic_case] over
    [enumerate(preferences)]. *)
Fixpoint basic_loop (budget : list Q) (citizens : list (nat * pyset))
  (decomposition : matrix) : result matrix :=
  match citizens with
  | [] => Ok decomposition
  | (citizen_index, citizen_preferences) :: rest =>
      preferred_subject <- next_iter citizen_preferences ;;
      b <- index budget preferred_subject ;;
      r <- index decomposition citizen_index ;;
      r' <- store r preferred_subject b ;;
      basic_loop budget rest (upd decomposition citizen_index r')
  end.

Definition enumerate {A : Type} (l : list A) : list (nat * A) :=
  combine (seq 0 (length l)) l.

Definition calc_decomposition_for_basic_case (budget : list Q)
  (preferences : list pyset) : result matrix :=
  let num_citizens := length preferences in
  let decomposition := zeros num_citizens (length budget) in
  basic_loop budget (enumerate preferences) decomposition.

Definition check_if_no_pref_then_return_None (preferences : list pyset) : bool :=
  existsb (fun pref => Nat.eqb (length pref) 0) preferences.

(** The [for j in range(len(budget))] loop of [find_decomposition]:
    [Ok None] is the early [return None]. *)
Fixpoint allocate_all (budget : list Q) (preferences : list pyset)
  (share_per_citizen : Q) (subjects : list nat) (decomposition : matrix)
  : result (option matrix) :=
  match subjects with
  | [] => Ok (Some decomposition)
  | j :: rest =>
      r <- allocate_budget_for_subject budget preferences j share_per_citizen
             decomposition ;;
      if fst r
      then allocate_all budget preferences share_per_citizen rest (snd r)
      else Ok None
  end.

(** The [else] branch of [find_decomposition]. *)
Definition general_case (budget : list Q) (preferences : list pyset)
  : result (option matrix) :=
  let n := length preferences in
  let share_per_citizen := snd (calculate_total_budget_and_share budget n) in
  let decomposition := zeros n (length budget) in
  r <- allocate_all budget preferences share_per_citizen
         (seq 0 (length budget)) decomposition ;;
  match r with
  | None => Ok None
  | Some decomposition' =>
      if verify_allocation decomposition' share_per_citizen
      then Ok (Some decomposition')
      else Ok None
  end.

Definition find_decomposition (budget : list Q) (preferences : list pyset)
  : result (option matrix) :=
  if check_if_no_pref_then_return_None preferences then Ok None
  else
    basic_case <- is_basic_case_func budget preferences ;;
    if (basic_case : bool)
    then
      d <- calc_decomposition_for_basic_case budget preferences ;;
      Ok (Some d)
    else general_case budget preferences.

(** ** The general path as the specification words it

    Definitions of this module follow the prose of the specification
    (section 4.4), not the source; they are compared with the embedding
    of the source below. *)

Module Spec.

(** Citizens that endorse subject [j], in ascending citizen index. *)
Definition interested (preferences : list pyset) (j : nat) : list nat :=
  filter (fun i => mem j (nth i preferences [])) (seq 0 (length preferences)).

(** Remaining capacity: share minus the current row sum. *)
Definition remaining_capacity (share : Q) (d : matrix) (i : nat) : Q :=
  share - sum (nth i d []).

(** Add [a] to entry [i][j]. *)
Definition add_to (d : matrix) (i j : nat) (a : Q) : matrix :=
  upd d i (upd (nth i d []) j (nth j (nth i d []) 0 + a)).

(** Greedy fill in the order of [citizens]; stops once the remaining
    subject budget is zero. *)
Fixpoint greedy (j : nat) (share : Q) (citizens : list nat) (remaining : Q)
  (d : matrix) : matrix :=
  match citizens with
  | [] => d
  | i :: rest =>
      if Qeq_bool remaining 0 then d
      else
        let a := py_min (remaining_capacity share d i) remaining in
        greedy j share rest (remaining - a) (add_to d i j a)
  end.

(** One subject: fail when the total remaining capacity of the
    interested citizens is strictly less than the subject's budget. *)
Definition allocate_subject (budget : list Q) (preferences : list pyset)
  (j : nat) (share : Q) (d : matrix) : option matrix :=
  let citizens := interested preferences j in
  let capacity := sum (map (remaining_capacity share d) citizens) in
  if Qlt_bool capacity (nth j budget 0) then None
  else Some (greedy j share citizens (nth j budget 0) d).

(** Subjects in the given order; a failing subject fails the run. *)
Fixpoint run (budget : list Q) (preferences : list pyset) (share : Q)
  (subjects : list nat) (d : matrix) : option matrix :=
  match subjects with
  | [] => Some d
  | j :: rest =>
      match allocate_subject budget preferences j share d with
      | None => None
      | Some d' => run budget preferences share rest d'
      end
  end.

End Spec.

(** ** Exception-free reading of the general path

    On a matrix of the right shape no lookup of the general path can
    fail; these functions are the embedding with the lookups resolved,
    branch for branch.  They are proof devices: every statement about
    them is transported to the embedding by the [_ok] lemmas below. *)

Definition fill_step (j : nat) (share : Q) (i : nat) (rem : Q) (d : matrix) : Q :=
  py_min (Spec.remaining_capacity share d i) rem.

Fixpoint fill (j : nat) (share : Q) (citizens : list nat) (rem : Q)
  (d : matrix) : matrix :=
  match citizens with
  | [] => d
  | i :: rest =>
      if Qle_bool rem 0 then d
      else
        let a := fill_step j share i rem d in
        fill j share rest (rem - a) (Spec.add_to d i j a)
  end.

Definition allocate_pure (budget : list Q) (preferences : list pyset)
  (j : nat) (share : Q) (d : matrix) : bool * matrix :=
  let b := nth j budget 0 in
  let citizens := Spec.interested preferences j in
  if (Nat.eqb (length citizens) 0 && Qlt_bool 0 b)%bool then (false, d)
  else if Qlt_bool (sum (map (Spec.remaining_capacity share d) citizens)) b
       then (false, d)
       else (true, fill j share citizens b d).

Fixpoint run_pure (budget : list Q) (preferences : list pyset) (share : Q)
  (subjects : list nat) (d : matrix) : option matrix :=
  match subjects with
  | [] => Some d
  | j :: rest =>
      let r := allocate_pure budget preferences j share d in
      if fst r then run_pure budget preferences share rest (snd r) else None
  end.

(** ** The program in binary64 floating point

    The same functions with Python floats as IEEE 754 binary64 numbers
    (Rocq's primitive floats) instead of exact rationals: [+], [-], [/],
    [<], [<=] and [abs] round and compare as Python's do.  The functions
    that do no arithmetic (list access, the interested citizens, the
    occurrence counts, the empty-set check) are shared with the exact
    embedding.  The Python int [0] of the zero matrix and of [sum] is the
    float [0.0], which adds and compares identically; [len(preferences)]
    is converted as Python converts an int operand of a float. *)

Module Float64.

Definition fmatrix : Type := list (list float).

(** [sum(l)] *)
Definition sum (l : list float) : float := fold_left PrimFloat.add l 0%float.

(** [min(a, b)] returns [b] only when [b < a]. *)
Definition py_min (a b : float) : float := if PrimFloat.ltb b a then b else a.

(** [1e-9]: the binary64 number nearest to 10^-9. *)
Definition tolerance : float := 0x1.12e0be826d695p-30%float.

Definition of_nat (n : nat) : float :=
  PrimFloat.of_uint63 (Uint63.of_Z (Z.of_nat n)).

Definition calculate_total_budget_and_share (budget : list float) (n : nat)
  : float * float :=
  let total_budget := sum budget in
  let share_per_citizen :=
    if Nat.eqb n 0 then 0%float else PrimFloat.div total_budget (of_nat n) in
  (total_budget, share_per_citizen).

Fixpoint total_possible (share_per_citizen : float) (decomposition : fmatrix)
  (interested_citizens : list nat) (acc : float) : result float :=
  match interested_citizens with
  | [] => Ok acc
  | i :: rest =>
      r <- index decomposition i ;;
      total_possible share_per_citizen decomposition rest
        (PrimFloat.add acc (PrimFloat.sub share_per_citizen (sum r)))
  end.

Fixpoint allocate_loop (subject_index : nat) (share_per_citizen : float)
  (interested_citizens : list nat) (subject_budget : float)
  (decomposition : fmatrix) : result fmatrix :=
  match interested_citizens with
  | [] => Ok decomposition
  | i :: rest =>
      if PrimFloat.leb subject_budget 0%float then Ok decomposition
      else
        r <- index decomposition i ;;
        let max_possible_allocation := PrimFloat.sub share_per_citizen (sum r) in
        let possible_allocation := py_min max_possible_allocation subject_budget in
        old <- index r subject_index ;;
        r' <- store r subject_index (PrimFloat.add old possible_allocation) ;;
        allocate_loop subject_index share_per_citizen rest
          (PrimFloat.sub subject_budget possible_allocation)
          (upd decomposition i r')
  end.

Definition allocate_budget_for_subject (budget : list float)
  (preferences : list pyset) (subject_index : nat) (share_per_citizen : float)
  (decomposition : fmatrix) : result (bool * fmatrix) :=
  subject_budget <- index budget subject_index ;;
  interested_citizens <-
    find_interested_citizens preferences subject_index (length preferences) ;;
  if (Nat.eqb (length interested_citizens) 0
      && PrimFloat.ltb 0%float subject_budget)%bool
  then Ok (false, decomposition)
  else
    total_possible_share <-
      total_possible share_per_citizen decomposition interested_citizens 0%float ;;
    if PrimFloat.ltb total_possible_share subject_budget
    then Ok (false, decomposition)
    else
      decomposition' <-
        allocate_loop subject_index share_per_citizen interested_citizens
          subject_budget decomposition ;;
      Ok (true, decomposition').

Definition verify_allocation (decomposition : fmatrix) (share_per_citizen : float)
  : bool :=
  forallb (fun allocation =>
             PrimFloat.ltb
               (PrimFloat.abs (PrimFloat.sub (sum allocation) share_per_citizen))
               tolerance)
    decomposition.

Definition is_basic_case_func (budget : list float) (preferences : list pyset)
  : result bool :=
  let num_subjects := length budget in
  subjects_interested_count <- count_all preferences (repeat 0%nat num_subjects) ;;
  let has_unique_preferences :=
    forallb (fun count => Nat.eqb count 1) subjects_interested_count in
  let has_sufficient_budget :=
    PrimFloat.leb (of_nat (length preferences)) (sum budget) in
  Ok (has_unique_preferences && has_sufficient_budget)%bool.

Definition zeros (n s : nat) : fmatrix := repeat (repeat 0%float s) n.

Fixpoint basic_loop (budget : list float) (citizens : list (nat * pyset))
  (decomposition : fmatrix) : result fmatrix :=
  match citizens with
  | [] => Ok decomposition
  | (citizen_index, citizen_preferences) :: rest =>
      preferred_subject <- next_iter citizen_preferences ;;
      b <- index budget preferred_subject ;;
      r <- index decomposition citizen_index ;;
      r' <- store r preferred_subject b ;;
      basic_loop budget rest (upd decomposition citizen_index r')
  end.

Definition calc_decomposition_for_basic_case (budget : list float)
  (preferences : list pyset) : result fmatrix :=
  let num_citizens := length preferences in
  let decomposition := zeros num_citizens (length budget) in
  basic_loop budget (enumerate preferences) decomposition.

Fixpoint allocate_all (budget : list float) (preferences : list pyset)
  (share_per_citizen : float) (subjects : list nat) (decomposition : fmatrix)
  : result (option fmatrix) :=
  match subjects with
  | [] => Ok (Some decomposition)
  | j :: rest =>
      r <- allocate_budget_for_subject budget preferences j share_per_citizen
             decomposition ;;
      if fst r
      then allocate_all budget preferences share_per_citizen rest (snd r)
      else Ok None
  end.

Definition general_case (budget : list float) (preferences : list pyset)
  : result (option fmatrix) :=
  let n := length preferences in
  let share_per_citizen := snd (calculate_total_budget_and_share budget n) in
  let decomposition := zeros n (length budget) in
  r <- allocate_all budget preferences share_per_citizen
         (seq 0 (length budget)) decomposition ;;
  match r with
  | None => Ok None
  | Some decomposition' =>
      if verify_allocation decomposition' share_per_citizen
      then Ok (Some decomposition')
      else Ok None
  end.

Definition find_decomposition (budget : list float) (preferences : list pyset)
  : result (option fmatrix) :=
  if check_if_no_pref_then_return_None preferences then Ok None
  else
    basic_case <- is_basic_case_func budget preferences ;;
    if (basic_case : bool)
    then
      d <- calc_decomposition_for_basic_case budget preferences ;;
      Ok (Some d)
    else general_case budget preferences.

(** The budget [0.3, 0.7, 0.7] as binary64 numbers: the floats nearest to
    the decimal literals, as Python reads them. *)
Definition budget_03_07_07 : list float :=
  [0x1.3333333333333p-2; 0x1.6666666666666p-1; 0x1.6666666666666p-1]%float.

End Float64.

(** ** The program with Python ints as subjects

    In the embedding above a subject is a natural number.  A Python set
    can also hold negative ints, and a negative int indexes a list from
    its end: [l[k]] with [-len(l) <= k < 0] is [l[len(l) + k]], and any
    [k] outside [-len(l) <= k < len(l)] raises [IndexError].  The
    functions below are the program with preference sets of arbitrary
    ints; the functions in which no subject appears ([total_possible],
    [allocate_loop], [verify_allocation], the share) are shared. *)

(** The list position that the Python index [k] denotes in a list of
    length [len], if any. *)
Definition position (len : nat) (k : Z) : option nat :=
  if (0 <=? k)%Z
  then if (k <? Z.of_nat len)%Z then Some (Z.to_nat k) else None
  else if (- Z.of_nat len <=? k)%Z
       then Some (Z.to_nat (Z.of_nat len + k)) else None.

(** [l[k]] as an expression, [k] a Python int. *)
Definition py_index {A : Type} (l : list A) (k : Z) : result A :=
  match position (length l) k with
  | Some i => index l i
  | None => Raise IndexError
  end.

(** [l[k] = a] as a statement, [k] a Python int. *)
Definition py_store {A : Type} (l : list A) (k : Z) (a : A) : result (list A) :=
  match position (length l) k with
  | Some i => store l i a
  | None => Raise IndexError
  end.

Module IntSubjects.

Definition pyset : Type := list Z.

(** [x in s], for a subject index [x] of [range(len(budget))]. *)
Definition mem (x : nat) (s : pyset) : bool := existsb (Z.eqb (Z.of_nat x)) s.

(** [next(iter(s))] *)
Definition next_iter (s : pyset) : result Z :=
  match s with
  | [] => Raise StopIteration
  | x :: _ => Ok x
  end.

Fixpoint interested_in (preferences : list pyset) (subject_index : nat)
  (range : list nat) : result (list nat) :=
  match range with
  | [] => Ok []
  | i :: range' =>
      p <- index preferences i ;;
      rest <- interested_in preferences subject_index range' ;;
      Ok (if mem subject_index p then i :: rest else rest)
  end.

Definition find_interested_citizens (preferences : list pyset)
  (subject_index n : nat) : result (list nat) :=
  interested_in preferences subject_index (seq 0 n).

Definition allocate_budget_for_subject (budget : list Q) (preferences : list pyset)
  (subject_index : nat) (share_per_citizen : Q) (decomposition : matrix)
  : result (bool * matrix) :=
  subject_budget <- index budget subject_index ;;
  interested_citizens <-
    find_interested_citizens preferences subject_index (length preferences) ;;
  if (Nat.eqb (length interested_citizens) 0 && Qlt_bool 0 subject_budget)%bool
  then Ok (false, decomposition)
  else
    total_possible_share <-
      total_possible share_per_citizen decomposition interested_citizens 0 ;;
    if Qlt_bool total_possible_share subject_budget
    then Ok (false, decomposition)
    else
      decomposition' <-
        allocate_loop subject_index share_per_citizen interested_citizens
          subject_budget decomposition ;;
      Ok (true, decomposition').

Fixpoint count_citizen (citizen_preferences : pyset)
  (subjects_interested_count : list nat) : result (list nat) :=
  match citizen_preferences with
  | [] => Ok subjects_interested_count
  | preferred_subject :: rest =>
      c <- py_index subjects_interested_count preferred_subject ;;
      counts' <- py_store subjects_interested_count preferred_subject (c + 1)%nat ;;
      count_citizen rest counts'
  end.

Fixpoint count_all (preferences : list pyset)
  (subjects_interested_count : list nat) : result (list nat) :=
  match preferences with
  | [] => Ok subjects_interested_count
  | citizen_preferences :: rest =>
      counts' <- count_citizen citizen_preferences subjects_interested_count ;;
      count_all rest counts'
  end.

Definition is_basic_case_func (budget : list Q) (preferences : list pyset)
  : result bool :=
  let num_subjects := length budget in
  subjects_interested_count <- count_all preferences (repeat 0%nat num_subjects) ;;
  let has_unique_preferences :=
    forallb (fun count => Nat.eqb count 1) subjects_interested_count in
  let has_sufficient_budget := Qle_bool (of_nat (length preferences)) (sum budget) in
  Ok (has_unique_preferences && has_sufficient_budget)%bool.

Fixpoint basic_loop (budget : list Q) (citizens : list (nat * pyset))
  (decomposition : matrix) : result matrix :=
  match citizens with
  | [] => Ok decomposition
  | (citizen_index, citizen_preferences) :: rest =>
      preferred_subject <- next_iter citizen_preferences ;;
      b <- py_index budget preferred_subject ;;
      r <- index decomposition citizen_index ;;
      r' <- py_store r preferred_subject b ;;
      basic_loop budget rest (upd decomposition citizen_index r')
  end.

Definition calc_decomposition_for_basic_case (budget : list Q)
  (preferences : list pyset) : result matrix :=
  let num_citizens := length preferences in
  let decomposition := zeros num_citizens (length budget) in
  basic_loop budget (enumerate preferences) decomposition.

Definition check_if_no_pref_then_return_None (preferences : list pyset) : bool :=
  existsb (fun pref => Nat.eqb (length pref) 0) preferences.

Fixpoint allocate_all (budget : list Q) (preferences : list pyset)
  (share_per_citizen : Q) (subjects : list nat) (decomposition : matrix)
  : result (option matrix) :=
  match subjects with
  | [] => Ok (Some decomposition)
  | j :: rest =>
      r <- allocate_budget_for_subject budget preferences j share_per_citizen
             decomposition ;;
      if fst r
      then allocate_all budget preferences share_per_citizen rest (snd r)
      else Ok None
  end.

Definition general_case (budget : list Q) (preferences : list pyset)
  : result (option matrix) :=
  let n := length preferences in
  let share_per_citizen := snd (calculate_total_budget_and_share budget n) in
  let decomposition := zeros n (length budget) in
  r <- allocate_all budget preferences share_per_citizen
         (seq 0 (length budget)) decomposition ;;
  match r with
  | None => Ok None
  | Some decomposition' =>
      if verify_allocation decomposition' share_per_citizen
      then Ok (Some decomposition')
      else Ok None
  end.

Definition find_decomposition (budget : list Q) (preferences : list pyset)
  : result (option matrix) :=
  if check_if_no_pref_then_return_None preferences then Ok None
  else
    basic_case <- is_basic_case_func budget preferences ;;
    if (basic_case : bool)
    then
      d <- calc_decomposition_for_basic_case budget preferences ;;
      Ok (Some d)
    else general_case budget preferences.

(** [k] is a legal Python index into a list of length [s]. *)
Definition in_range (s : nat) (k : Z) : Prop :=
  (- Z.of_nat s <= k < Z.of_nat s)%Z.

(** Every preferred subject is a legal index into the budget. *)
Definition legal_preferences (s : nat) (preferences : list pyset) : Prop :=
  Forall (fun p => Forall (in_range s) p) preferences.

(** The set is non-empty and its first element is a legal index. *)
Definition legal_head (s : nat) (p : pyset) : Prop :=
  exists x rest, p = x :: rest /\ in_range s x.

(** Row of citizen [p] on the basic path: the budget of the first
    preferred subject at the position it denotes, zero elsewhere. *)
Definition basic_row (budget : list Q) (p : pyset) : list Q :=
  match p with
  | x :: _ =>
      match position (length budget) x with
      | Some i => upd (repeat 0 (length budget)) i (nth i budget 0)
      | None => repeat 0 (length budget)
      end
  | [] => repeat 0 (length budget)
  end.

(** The preference set as the general path sees it: its non-negative
    elements. *)
Definition visible (p : pyset) : list nat :=
  map Z.to_nat (filter (Z.leb 0) p).

End IntSubjects.

(** ** Predicates used in the statements *)

(** Interface precondition: every preferred subject is a subject index. *)
Definition valid_preferences (s : nat) (preferences : list pyset) : Prop :=
  Forall (fun p => Forall (fun j => (j < s)%nat) p) preferences.

Definition nonneg (budget : list Q) : Prop := Forall (fun b => 0 <= b) budget.

(** An [n] by [s] matrix. *)
Definition shape (n s : nat) (d : matrix) : Prop :=
  length d = n /\ Forall (fun r => length r = s) d.

(** Sum of column [j]. *)
Definition column_sum (d : matrix) (j : nat) : Q :=
  sum (map (fun r => nth j r 0) d).

(** Sum of all entries, row by row. *)
Definition mtotal (d : matrix) : Q := sum (map sum d).

(** Row of citizen [ps] on the basic path: the budget of the first
    preferred subject, zero elsewhere. *)
Definition basic_row (budget : list Q) (ps : pyset) : list Q :=
  upd (repeat 0 (length budget)) (hd 0%nat ps) (nth (hd 0%nat ps) budget 0).

(** Entries outside the preference sets are (literally) zero. *)
Definition respects (preferences : list pyset) (d : matrix) : Prop :=
  forall i j, mem j (nth i preferences []) = false -> nth j (nth i d []) 0 = 0.

Definition entries_nonneg (d : matrix) : Prop :=
  Forall (fun r => Forall (fun x => 0 <= x) r) d.

(** No row exceeds the share. *)
Definition rows_le (share : Q) (d : matrix) : Prop :=
  Forall (fun r => sum r <= share) d.

(** The share of [find_decomposition]'s general path. *)
Definition share_of (budget : list Q) (preferences : list pyset) : Q :=
  snd (calculate_total_budget_and_share budget (length preferences)).

(** Number of times subject [k] is listed over all preference sets. *)
Definition occurrences (k : nat) (preferences : list pyset) : nat :=
  list_sum (map (fun p => count_occ Nat.eq_dec p k) preferences).

(** Number of citizens whose first preference, in iteration order, is [j]. *)
Definition first_choice_count (j : nat) (preferences : list pyset) : nat :=
  length (filter (fun p => match p with
                           | x :: _ => Nat.eqb x j
                           | [] => false
                           end) preferences).

(** The set is non-empty and its first element is a subject index. *)
Definition head_ok (s : nat) (p : pyset) : Prop :=
  exists x rest, p = x :: rest /\ (x < s)%nat.

(** A decomposition of [budget] for [preferences]: an N by S matrix of
    non-negative entries whose rows sum to the share, whose columns sum
    to the budgets, and that puts money only on endorsed subjects. *)
Definition is_decomposition (budget : list Q) (preferences : list pyset)
  (d : matrix) : Prop :=
  shape (length preferences) (length budget) d /\
  entries_nonneg d /\
  (forall row, In row d -> sum row == share_of budget preferences) /\
  (forall j, (j < length budget)%nat -> column_sum d j == nth j budget 0) /\
  (forall i j, 0 < nth j (nth i d []) 0 -> In j (nth i preferences [])).

(** * Proofs *)

(** ** Scenarios of the specification, run on the embedding *)

Example scenario_1 :
  find_decomposition [100] [[0%nat]] = Ok (Some [[100]]).
Proof. reflexivity. Qed.

Example scenario_3 : find_decomposition [10] [[]] = Ok None.
Proof. reflexivity. Qed.

Example scenario_4 :
  find_decomposition [0; 100] [[0%nat]; [1%nat]] = Ok (Some [[0; 0]; [0; 100]]).
Proof. reflexivity. Qed.

Example scenario_5 :
  find_decomposition [10; 10] [[0%nat]; [0%nat]] = Ok None.
Proof. reflexivity. Qed.

Example scenario_2 :
  exists d,
    find_decomposition [400; 50; 50; 0]
      [[0; 1]; [0; 2]; [0; 3]; [1; 2]; [0]]%nat = Ok (Some d) /\
    Forall2 (Forall2 Qeq) d
      [[100; 0; 0; 0]; [100; 0; 0; 0]; [100; 0; 0; 0]; [0; 50; 50; 0];
       [100; 0; 0; 0]].
Proof.
  eexists. split; [reflexivity|].
  repeat (constructor; try reflexivity).
Qed.

Example scenario_6 :
  find_decomposition [5] [[0%nat]; [0%nat]] = Ok (Some [[5 # 2]; [5 # 2]]).
Proof. reflexivity. Qed.


(** ** Monad and list access *)

Lemma bind_Ok_inv (A B : Type) (c : result A) (k : A -> result B) (b : B) :
  bind c k = Ok b -> exists a, c = Ok a /\ k a = Ok b.
Proof.
  destruct c as [a|e]; simpl; intro H.
  - exists a. split; [reflexivity | exact H].
  - discriminate H.
Qed.

Lemma index_ok (A : Type) (l : list A) (i : nat) (d : A) :
  (i < length l)%nat -> index l i = Ok (nth i l d).
Proof.
  intro H. unfold index.
  rewrite (nth_error_nth' l d H). reflexivity.
Qed.

Lemma index_inv (A : Type) (l : list A) (i : nat) (a d : A) :
  index l i = Ok a -> (i < length l)%nat /\ nth i l d = a.
Proof.
  unfold index. destruct (nth_error l i) eqn:E; intro H; inversion H; subst.
  split.
  - apply nth_error_Some. congruence.
  - apply nth_error_nth. exact E.
Qed.

Lemma store_ok (A : Type) (l : list A) (i : nat) (a : A) :
  (i < length l)%nat -> store l i a = Ok (upd l i a).
Proof.
  intro H. unfold store. apply Nat.ltb_lt in H. rewrite H. reflexivity.
Qed.

Lemma store_inv (A : Type) (l l' : list A) (i : nat) (a : A) :
  store l i a = Ok l' -> (i < length l)%nat /\ l' = upd l i a.
Proof.
  unfold store. destruct (i <? length l) eqn:E; intro H; inversion H.
  split; [apply Nat.ltb_lt; exact E | reflexivity].
Qed.

Lemma length_upd (A : Type) (l : list A) (i : nat) (a : A) :
  length (upd l i a) = length l.
Proof.
  revert i. induction l as [|h t IH]; intros [|i]; simpl; auto.
Qed.

Lemma nth_upd_eq (A : Type) (l : list A) (i : nat) (a d : A) :
  (i < length l)%nat -> nth i (upd l i a) d = a.
Proof.
  revert i. induction l as [|h t IH]; intros [|i]; simpl; intro H; try lia; auto.
  apply IH. lia.
Qed.

Lemma nth_upd_ne (A : Type) (l : list A) (i k : nat) (a d : A) :
  i <> k -> nth k (upd l i a) d = nth k l d.
Proof.
  revert i k. induction l as [|h t IH]; intros [|i] [|k]; simpl; intro H;
    try congruence; auto.
Qed.

Lemma upd_Forall (A : Type) (P : A -> Prop) (l : list A) (i : nat) (a : A) :
  Forall P l -> P a -> Forall P (upd l i a).
Proof.
  intros Hl Ha. revert i.
  induction Hl as [|h t Hh Ht IH]; intros [|i]; simpl; constructor; auto.
Qed.

(** ** Rational arithmetic of the program *)

Lemma Qlt_bool_iff (x y : Q) : Qlt_bool x y = true <-> x < y.
Proof.
  unfold Qlt_bool. rewrite negb_true_iff.
  split; intro H.
  - apply Qnot_le_lt. intro Hle. apply Qle_bool_iff in Hle. congruence.
  - destruct (Qle_bool y x) eqn:E; [|reflexivity].
    apply Qle_bool_iff in E. exfalso. apply (Qlt_not_le _ _ H E).
Qed.

Lemma Qlt_bool_false (x y : Q) : Qlt_bool x y = false <-> y <= x.
Proof.
  unfold Qlt_bool. rewrite negb_false_iff. apply Qle_bool_iff.
Qed.

Lemma Qle_bool_false (x y : Q) : Qle_bool x y = false <-> y < x.
Proof.
  rewrite <- Qlt_bool_iff. unfold Qlt_bool. rewrite negb_true_iff. reflexivity.
Qed.

Lemma py_min_le_l (a b : Q) : py_min a b <= a.
Proof.
  unfold py_min. destruct (Qlt_bool b a) eqn:E.
  - apply Qlt_bool_iff in E. lra.
  - lra.
Qed.

Lemma py_min_le_r (a b : Q) : py_min a b <= b.
Proof.
  unfold py_min. destruct (Qlt_bool b a) eqn:E.
  - lra.
  - apply Qlt_bool_false in E. exact E.
Qed.

Lemma py_min_cases (a b : Q) :
  (py_min a b = a /\ a <= b) \/ (py_min a b = b /\ b < a).
Proof.
  unfold py_min. destruct (Qlt_bool b a) eqn:E.
  - right. apply Qlt_bool_iff in E. auto.
  - left. apply Qlt_bool_false in E. auto.
Qed.

Lemma fold_left_Qplus_acc (l : list Q) (a : Q) :
  fold_left Qplus l a == a + sum l.
Proof.
  unfold sum. revert a.
  induction l as [|x l IH]; intro a; simpl.
  - lra.
  - rewrite (IH (a + x)), (IH (0 + x)). lra.
Qed.

Lemma sum_nil : sum [] = 0.
Proof. reflexivity. Qed.

Lemma sum_cons (x : Q) (l : list Q) : sum (x :: l) == x + sum l.
Proof.
  unfold sum at 1. simpl. rewrite fold_left_Qplus_acc. lra.
Qed.

Lemma sum_repeat_0 (n : nat) : sum (repeat 0 n) == 0.
Proof.
  induction n as [|n IH]; simpl.
  - reflexivity.
  - rewrite sum_cons, IH. lra.
Qed.

Lemma sum_upd (l : list Q) (j : nat) (y : Q) :
  (j < length l)%nat -> sum (upd l j y) == sum l - nth j l 0 + y.
Proof.
  revert j. induction l as [|x l IH]; intros [|j]; simpl; intro H; try lia.
  - rewrite !sum_cons. lra.
  - rewrite !sum_cons, IH by lia. lra.
Qed.

(** ** The general path raises no exception *)

Lemma interested_in_ok (preferences : list pyset) (j : nat) (range : list nat) :
  Forall (fun i => (i < length preferences)%nat) range ->
  interested_in preferences j range
  = Ok (filter (fun i => mem j (nth i preferences [])) range).
Proof.
  induction 1 as [|i range Hi Hr IH]; simpl.
  - reflexivity.
  - rewrite (index_ok preferences [] Hi). simpl. rewrite IH. reflexivity.
Qed.

Lemma seq_below (n : nat) : Forall (fun i => (i < n)%nat) (seq 0 n).
Proof.
  apply Forall_forall. intros i Hi. apply in_seq in Hi. lia.
Qed.

Lemma find_interested_citizens_ok (preferences : list pyset) (j : nat) :
  find_interested_citizens preferences j (length preferences)
  = Ok (Spec.interested preferences j).
Proof.
  unfold find_interested_citizens, Spec.interested.
  apply interested_in_ok, seq_below.
Qed.

Lemma interested_spec (preferences : list pyset) (j i : nat) :
  In i (Spec.interested preferences j) <->
  (i < length preferences)%nat /\ mem j (nth i preferences []) = true.
Proof.
  unfold Spec.interested. rewrite filter_In, in_seq. intuition lia.
Qed.

Lemma interested_below (preferences : list pyset) (j : nat) :
  Forall (fun i => (i < length preferences)%nat) (Spec.interested preferences j).
Proof.
  apply Forall_forall. intros i Hi. apply interested_spec in Hi. tauto.
Qed.

Lemma interested_NoDup (preferences : list pyset) (j : nat) :
  NoDup (Spec.interested preferences j).
Proof.
  unfold Spec.interested. apply NoDup_filter, seq_NoDup.
Qed.

Lemma total_possible_ok (n s : nat) (share : Q) (d : matrix) (citizens : list nat) :
  shape n s d ->
  Forall (fun i => (i < n)%nat) citizens ->
  forall acc,
    total_possible share d citizens acc
    = Ok (fold_left Qplus (map (Spec.remaining_capacity share d) citizens) acc).
Proof.
  intros [Hn _]. induction 1 as [|i rest Hi Hr IH]; intro acc; simpl.
  - reflexivity.
  - rewrite (index_ok d [] (i := i)) by lia. simpl. apply IH.
Qed.

Lemma zeros_shape (n s : nat) : shape n s (zeros n s).
Proof.
  unfold shape, zeros. split.
  - apply repeat_length.
  - apply Forall_forall. intros r Hr. apply repeat_spec in Hr. subst r.
    apply repeat_length.
Qed.

Lemma shape_row (n s : nat) (d : matrix) (i : nat) :
  shape n s d -> (i < n)%nat -> length (nth i d []) = s.
Proof.
  intros [Hn Hs] Hi. rewrite Forall_forall in Hs. apply Hs, nth_In. lia.
Qed.

Lemma add_to_shape (n s : nat) (d : matrix) (i j : nat) (a : Q) :
  shape n s d -> (i < n)%nat -> shape n s (Spec.add_to d i j a).
Proof.
  intros H Hi. pose proof (shape_row H Hi) as Hr. destruct H as [Hn Hs].
  unfold Spec.add_to. split.
  - rewrite length_upd. exact Hn.
  - apply upd_Forall; [exact Hs|]. rewrite length_upd. exact Hr.
Qed.

Lemma fill_shape (n s j : nat) (share : Q) (citizens : list nat) :
  Forall (fun i => (i < n)%nat) citizens ->
  forall rem d, shape n s d -> shape n s (fill j share citizens rem d).
Proof.
  induction 1 as [|i rest Hi Hr IH]; intros rem d Hd; simpl.
  - exact Hd.
  - destruct (Qle_bool rem 0); [exact Hd|].
    apply IH, add_to_shape; assumption.
Qed.

Lemma allocate_loop_ok (n s j : nat) (share : Q) (citizens : list nat) :
  (j < s)%nat ->
  Forall (fun i => (i < n)%nat) citizens ->
  forall rem d,
    shape n s d ->
    allocate_loop j share citizens rem d = Ok (fill j share citizens rem d).
Proof.
  intros Hj. induction 1 as [|i rest Hi Hr IH]; intros rem d Hd; simpl.
  - reflexivity.
  - destruct (Qle_bool rem 0); [reflexivity|].
    pose proof (shape_row Hd Hi) as Hrow. destruct Hd as [Hn Hs].
    rewrite (index_ok d [] (i := i)) by lia. simpl.
    rewrite (index_ok (nth i d []) 0 (i := j)) by lia. simpl.
    rewrite store_ok by lia. simpl.
    apply IH. apply add_to_shape; [split; assumption | exact Hi].
Qed.

Lemma allocate_pure_shape (n s : nat) (budget : list Q) (preferences : list pyset)
  (j : nat) (share : Q) (d : matrix) :
  length preferences = n -> shape n s d ->
  shape n s (snd (allocate_pure budget preferences j share d)).
Proof.
  intros Hn Hd. unfold allocate_pure.
  destruct (_ && _)%bool; [exact Hd|].
  destruct (Qlt_bool _ _); [exact Hd|]. simpl.
  apply fill_shape; [|exact Hd]. rewrite <- Hn. apply interested_below.
Qed.

Lemma allocate_budget_for_subject_ok (budget : list Q) (preferences : list pyset)
  (j : nat) (share : Q) (d : matrix) :
  (j < length budget)%nat ->
  shape (length preferences) (length budget) d ->
  allocate_budget_for_subject budget preferences j share d
  = Ok (allocate_pure budget preferences j share d).
Proof.
  intros Hj Hd. unfold allocate_budget_for_subject, allocate_pure.
  rewrite (index_ok budget 0 Hj). simpl.
  rewrite find_interested_citizens_ok. simpl.
  destruct (_ && _)%bool; [reflexivity|].
  rewrite (total_possible_ok share Hd (interested_below preferences j)). simpl.
  fold (sum (map (Spec.remaining_capacity share d) (Spec.interested preferences j))).
  destruct (Qlt_bool _ _); [reflexivity|].
  rewrite (allocate_loop_ok share Hj (interested_below preferences j) _ Hd).
  reflexivity.
Qed.

Lemma run_pure_shape (n s : nat) (budget : list Q) (preferences : list pyset)
  (share : Q) (subjects : list nat) :
  length preferences = n ->
  forall d d', shape n s d ->
    run_pure budget preferences share subjects d = Some d' -> shape n s d'.
Proof.
  intro Hn. induction subjects as [|j rest IH]; intros d d' Hd H; simpl in H.
  - inversion H; subst. exact Hd.
  - destruct (fst (allocate_pure budget preferences j share d)); [|discriminate].
    apply IH in H; [exact H|]. apply allocate_pure_shape; assumption.
Qed.

Lemma allocate_all_ok (budget : list Q) (preferences : list pyset) (share : Q)
  (subjects : list nat) :
  Forall (fun j => (j < length budget)%nat) subjects ->
  forall d,
    shape (length preferences) (length budget) d ->
    allocate_all budget preferences share subjects d
    = Ok (run_pure budget preferences share subjects d).
Proof.
  induction 1 as [|j rest Hj Hr IH]; intros d Hd; simpl.
  - reflexivity.
  - rewrite allocate_budget_for_subject_ok by assumption. simpl.
    destruct (fst (allocate_pure budget preferences j share d)); [|reflexivity].
    apply IH. apply allocate_pure_shape; [reflexivity | exact Hd].
Qed.

Lemma general_case_ok (budget : list Q) (preferences : list pyset) :
  let n := length preferences in
  let share := snd (calculate_total_budget_and_share budget n) in
  general_case budget preferences
  = Ok (match run_pure budget preferences share (seq 0 (length budget))
                (zeros n (length budget)) with
        | None => None
        | Some d => if verify_allocation d share then Some d else None
        end).
Proof.
  intros n share. unfold general_case. fold n. fold share.
  rewrite allocate_all_ok by (apply seq_below || apply zeros_shape).
  simpl. destruct (run_pure _ _ _ _ _); [|reflexivity].
  destruct (verify_allocation _ _); reflexivity.
Qed.

(** ** Unfolding [find_decomposition] *)

Lemma find_decomposition_inv (budget : list Q) (preferences : list pyset)
  (d : matrix) :
  find_decomposition budget preferences = Ok (Some d) ->
  check_if_no_pref_then_return_None preferences = false /\
  ((is_basic_case_func budget preferences = Ok true /\
    calc_decomposition_for_basic_case budget preferences = Ok d) \/
   (is_basic_case_func budget preferences = Ok false /\
    general_case budget preferences = Ok (Some d))).
Proof.
  unfold find_decomposition.
  destruct (check_if_no_pref_then_return_None preferences); [discriminate|].
  intro H. split; [reflexivity|].
  apply bind_Ok_inv in H. destruct H as [[|] [Hb H]].
  - left. split; [exact Hb|].
    apply bind_Ok_inv in H. destruct H as [d' [Hc H]].
    inversion H; subst. exact Hc.
  - right. split; [exact Hb | exact H].
Qed.

Lemma general_case_inv (budget : list Q) (preferences : list pyset) (d : matrix) :
  general_case budget preferences = Ok (Some d) ->
  run_pure budget preferences (share_of budget preferences)
    (seq 0 (length budget)) (zeros (length preferences) (length budget)) = Some d
  /\ verify_allocation d (share_of budget preferences) = true.
Proof.
  rewrite general_case_ok. fold (share_of budget preferences).
  destruct (run_pure _ _ _ _ _) as [d'|]; [|discriminate].
  destruct (verify_allocation d' _) eqn:E; [|discriminate].
  intro H. inversion H; subst. auto.
Qed.

Lemma check_no_pref_true (preferences : list pyset) :
  check_if_no_pref_then_return_None preferences = true <-> In [] preferences.
Proof.
  unfold check_if_no_pref_then_return_None. rewrite existsb_exists. split.
  - intros [p [Hin Hp]]. destruct p; [exact Hin | discriminate].
  - intro H. exists []. split; [exact H | reflexivity].
Qed.

(** ** C6: an empty preference set gives the sentinel *)

(** C6. Whenever some citizen's preference set is empty,
    [find_decomposition] returns the "no solution" sentinel, whatever the
    budget vector is (and without raising). *)
Theorem empty_preference_no_solution (budget : list Q) (preferences : list pyset) :
  In [] preferences -> find_decomposition budget preferences = Ok None.
Proof.
  intro H. apply check_no_pref_true in H.
  unfold find_decomposition. rewrite H. reflexivity.
Qed.

Lemma empty_preference_no_solution_witness :
  In [] [[0%nat]; []] /\ find_decomposition [10; 20] [[0%nat]; []] = Ok None.
Proof.
  split.
  - simpl. auto.
  - apply (@empty_preference_no_solution [10; 20] [[0%nat]; []]). simpl. auto.
Defined.

(** ** C1: the share invariant *)

(** C1, as stated, fails: on the basic path (scenario 4 of the
    specification) citizen 0 receives 0 while the share is 50. *)
Lemma share_invariant_fails_on_basic_path :
  exists d row,
    find_decomposition [0; 100] [[0%nat]; [1%nat]] = Ok (Some d) /\
    nth_error d 0 = Some row /\
    ~ Qabs (sum row - sum [0; 100] / of_nat 2) < tolerance.
Proof.
  exists [[0; 0]; [0; 100]], [0; 0]. split; [reflexivity|]. split; [reflexivity|].
  vm_compute. intro H. discriminate H.
Qed.

Lemma share_of_pos (budget : list Q) (preferences : list pyset) :
  (0 < length preferences)%nat ->
  share_of budget preferences = sum budget / of_nat (length preferences).
Proof.
  intro H. unfold share_of, calculate_total_budget_and_share. simpl.
  destruct (length preferences); [lia | reflexivity].
Qed.

Lemma verify_allocation_spec (d : matrix) (share : Q) :
  verify_allocation d share = true <->
  forall row, In row d -> Qabs (sum row - share) < tolerance.
Proof.
  unfold verify_allocation. rewrite forallb_forall.
  split; intros H row Hin; apply Qlt_bool_iff, H, Hin.
Qed.

(** C1 (amended). On the general path (the input is not a basic case)
    every returned matrix has one row per citizen and each row sums to
    (sum of budget) / N within 1e-9. *)
Theorem general_path_share_invariant (budget : list Q) (preferences : list pyset)
  (d : matrix) :
  is_basic_case_func budget preferences = Ok false ->
  find_decomposition budget preferences = Ok (Some d) ->
  length d = length preferences /\
  forall i row,
    nth_error d i = Some row ->
    Qabs (sum row - sum budget / of_nat (length preferences)) < tolerance.
Proof.
  intros Hb H. apply find_decomposition_inv in H.
  destruct H as [_ [[Hb' _] | [_ H]]]; [congruence|].
  apply general_case_inv in H. destruct H as [Hrun Hver].
  pose proof (run_pure_shape _ _ _ _ eq_refl
                (zeros_shape (length preferences) (length budget)) Hrun) as [Hlen _].
  split; [exact Hlen|].
  intros i row Hrow.
  assert (Hi : (i < length d)%nat) by (apply nth_error_Some; congruence).
  rewrite <- share_of_pos by lia.
  rewrite verify_allocation_spec in Hver. apply Hver.
  eapply nth_error_In, Hrow.
Qed.

Lemma general_path_share_invariant_witness :
  is_basic_case_func [5] [[0%nat]; [0%nat]] = Ok false /\
  find_decomposition [5] [[0%nat]; [0%nat]] = Ok (Some [[5 # 2]; [5 # 2]]) /\
  Qabs (sum [5 # 2] - sum [5] / of_nat 2) < tolerance.
Proof.
  split; [reflexivity|]. split; [reflexivity|].
  apply (@general_path_share_invariant [5] [[0%nat]; [0%nat]] [[5 # 2]; [5 # 2]]
           eq_refl eq_refl) with (i := 1%nat).
  reflexivity.
Defined.

(** ** The basic-case detector *)

Lemma count_citizen_ok (ps : pyset) :
  forall c,
    Forall (fun j => (j < length c)%nat) ps ->
    exists c',
      count_citizen ps c = Ok c' /\ length c' = length c /\
      forall k, ~ In k ps -> nth k c' 0%nat = nth k c 0%nat.
Proof.
  induction ps as [|p ps IH]; intros c Hv; simpl.
  - exists c. auto.
  - inversion Hv as [|? ? Hp Hps]; subst.
    rewrite (index_ok c 0%nat Hp). simpl. rewrite store_ok by exact Hp. simpl.
    destruct (IH (upd c p (nth p c 0 + 1))%nat) as [c' [Hc [Hl Hk]]].
    + rewrite length_upd. exact Hps.
    + exists c'. split; [exact Hc|]. split.
      * rewrite Hl. apply length_upd.
      * intros k Hnk. rewrite Hk by tauto. apply nth_upd_ne. tauto.
Qed.

Lemma count_citizen_inv (ps : pyset) :
  forall c c',
    count_citizen ps c = Ok c' ->
    Forall (fun j => (j < length c)%nat) ps /\ length c' = length c.
Proof.
  induction ps as [|p ps IH]; intros c c' H; simpl in H.
  - inversion H; subst. auto.
  - apply bind_Ok_inv in H. destruct H as [x [Hx H]].
    apply (index_inv _ _ 0%nat) in Hx. destruct Hx as [Hp _].
    apply bind_Ok_inv in H. destruct H as [c1 [Hc1 H]].
    apply store_inv in Hc1. destruct Hc1 as [_ ->].
    apply IH in H. rewrite length_upd in H. destruct H as [Hps Hl].
    split; [constructor; assumption | exact Hl].
Qed.

Lemma count_all_ok (preferences : list pyset) :
  forall c,
    valid_preferences (length c) preferences ->
    exists c',
      count_all preferences c = Ok c' /\ length c' = length c /\
      forall k, (forall p, In p preferences -> ~ In k p) ->
                nth k c' 0%nat = nth k c 0%nat.
Proof.
  induction preferences as [|p ps IH]; intros c Hv; simpl.
  - exists c. auto.
  - inversion Hv as [|? ? Hp Hps]; subst.
    destruct (count_citizen_ok c Hp) as [c1 [Hc1 [Hl1 Hk1]]].
    rewrite Hc1. simpl.
    destruct (IH c1) as [c' [Hc [Hl Hk]]].
    + rewrite Hl1. exact Hps.
    + exists c'. split; [exact Hc|]. split; [congruence|].
      intros k Hnk. rewrite Hk, Hk1; auto using in_eq, in_cons.
Qed.

Lemma count_all_inv (preferences : list pyset) :
  forall c c',
    count_all preferences c = Ok c' ->
    valid_preferences (length c) preferences.
Proof.
  induction preferences as [|p ps IH]; intros c c' H; simpl in H.
  - constructor.
  - apply bind_Ok_inv in H. destruct H as [c1 [Hc1 H]].
    apply count_citizen_inv in Hc1. destruct Hc1 as [Hp Hl].
    apply IH in H. rewrite Hl in H. constructor; assumption.
Qed.

Lemma is_basic_case_func_valid (budget : list Q) (preferences : list pyset) (b : bool) :
  is_basic_case_func budget preferences = Ok b ->
  valid_preferences (length budget) preferences.
Proof.
  unfold is_basic_case_func. intro H.
  apply bind_Ok_inv in H. destruct H as [c [Hc _]].
  apply count_all_inv in Hc. rewrite repeat_length in Hc. exact Hc.
Qed.

Lemma nth_repeat_any (A : Type) (a d : A) (n k : nat) :
  (k < n)%nat -> nth k (repeat a n) d = a.
Proof.
  intro H. apply repeat_spec with (n := n). apply nth_In.
  rewrite repeat_length. exact H.
Qed.

Lemma is_basic_case_func_unendorsed (budget : list Q) (preferences : list pyset)
  (j : nat) :
  valid_preferences (length budget) preferences ->
  (j < length budget)%nat ->
  (forall p, In p preferences -> ~ In j p) ->
  is_basic_case_func budget preferences = Ok false.
Proof.
  intros Hv Hj Hn. unfold is_basic_case_func.
  destruct (@count_all_ok preferences (repeat 0%nat (length budget)))
    as [c [Hc [Hl Hk]]].
  - rewrite repeat_length. exact Hv.
  - rewrite Hc. simpl.
    assert (Hf : forallb (fun count => Nat.eqb count 1) c = false).
    { destruct (forallb _ c) eqn:E; [|reflexivity].
      rewrite forallb_forall in E.
      assert (Hin : In (nth j c 0%nat) c).
      { apply nth_In. rewrite Hl, repeat_length. exact Hj. }
      apply E in Hin. rewrite (Hk j Hn), nth_repeat_any in Hin by exact Hj.
      discriminate Hin. }
    rewrite Hf. reflexivity.
Qed.

(** ** C7: money on a subject nobody endorses *)

Lemma mem_true (j : nat) (p : pyset) : mem j p = true <-> In j p.
Proof.
  unfold mem. rewrite existsb_exists. split.
  - intros [x [Hin Hx]]. apply Nat.eqb_eq in Hx. subst. exact Hin.
  - intro H. exists j. split; [exact H | apply Nat.eqb_refl].
Qed.

Lemma interested_nil (preferences : list pyset) (j : nat) :
  (forall p, In p preferences -> ~ In j p) ->
  Spec.interested preferences j = [].
Proof.
  intro Hn. destruct (Spec.interested preferences j) as [|i l] eqn:E; [reflexivity|].
  assert (Hi : In i (Spec.interested preferences j)) by (rewrite E; left; reflexivity).
  apply interested_spec in Hi. destruct Hi as [Hlt Hm].
  apply mem_true in Hm. exfalso. apply (Hn (nth i preferences [])); [|exact Hm].
  apply nth_In. exact Hlt.
Qed.

Lemma run_pure_unendorsed (budget : list Q) (preferences : list pyset) (share : Q)
  (j : nat) (subjects : list nat) :
  In j subjects ->
  0 < nth j budget 0 ->
  Spec.interested preferences j = [] ->
  forall d, run_pure budget preferences share subjects d = None.
Proof.
  intros Hin Hb He.
  induction subjects as [|k rest IH]; intro d; simpl.
  - destruct Hin.
  - destruct (Nat.eq_dec k j) as [->|Hne].
    + unfold allocate_pure. rewrite He. simpl.
      apply Qlt_bool_iff in Hb. rewrite Hb. reflexivity.
    + destruct (fst (allocate_pure budget preferences k share d)); [|reflexivity].
      apply IH. destruct Hin; [congruence | assumption].
Qed.

(** C7. For every input that meets the interface precondition (preferred
    subjects are subject indices): if some subject [j] has a positive
    budget and no citizen's preference set contains [j], then
    [find_decomposition] returns the "no solution" sentinel. *)
Theorem unendorsed_budget_no_solution (budget : list Q) (preferences : list pyset)
  (j : nat) :
  valid_preferences (length budget) preferences ->
  (j < length budget)%nat ->
  0 < nth j budget 0 ->
  (forall p, In p preferences -> ~ In j p) ->
  find_decomposition budget preferences = Ok None.
Proof.
  intros Hv Hj Hb Hn. unfold find_decomposition.
  destruct (check_if_no_pref_then_return_None preferences); [reflexivity|].
  rewrite (is_basic_case_func_unendorsed budget Hv Hj Hn). simpl.
  rewrite general_case_ok.
  rewrite (@run_pure_unendorsed budget preferences _ j); auto.
  - apply in_seq. lia.
  - apply interested_nil. exact Hn.
Qed.

Lemma unendorsed_budget_no_solution_witness :
  find_decomposition [10; 10] [[0%nat]; [0%nat]] = Ok None.
Proof.
  apply (@unendorsed_budget_no_solution [10; 10] [[0%nat]; [0%nat]] 1%nat).
  - repeat constructor.
  - simpl. lia.
  - reflexivity.
  - intros p [<-|[<-|[]]] [H|[]]; discriminate H.
Defined.

(** ** C8: no citizens *)

Lemma run_pure_no_citizens (budget : list Q) (share : Q) (subjects : list nat) :
  run_pure budget [] share subjects []
  = if existsb (fun j => Qlt_bool 0 (nth j budget 0)) subjects
    then None else Some [].
Proof.
  induction subjects as [|j rest IH]; simpl.
  - reflexivity.
  - unfold allocate_pure. simpl.
    change (sum []) with 0.
    destruct (Qlt_bool 0 (nth j budget 0)); simpl; [reflexivity | exact IH].
Qed.

Lemma is_basic_case_func_no_citizens (b : Q) (budget : list Q) :
  is_basic_case_func (b :: budget) [] = Ok false.
Proof. reflexivity. Qed.

Lemma existsb_positive (budget : list Q) :
  existsb (fun j => Qlt_bool 0 (nth j budget 0)) (seq 0 (length budget)) = true
  <-> Exists (fun b => 0 < b) budget.
Proof.
  rewrite existsb_exists, Exists_exists. split.
  - intros [j [Hj Hb]]. apply in_seq in Hj. apply Qlt_bool_iff in Hb.
    exists (nth j budget 0). split; [apply nth_In; lia | exact Hb].
  - intros [b [Hin Hb]]. destruct (In_nth _ _ 0 Hin) as [j [Hj Hnth]].
    exists j. split; [apply in_seq; lia|].
    rewrite Hnth. apply Qlt_bool_iff. exact Hb.
Qed.

(** C8. With zero citizens the share is 0 (no division is attempted),
    [find_decomposition] returns the "no solution" sentinel when some
    budget entry is positive, and the empty matrix when every budget
    entry is zero. *)
Theorem no_citizens (budget : list Q) :
  snd (calculate_total_budget_and_share budget 0) = 0 /\
  (Exists (fun b => 0 < b) budget -> find_decomposition budget [] = Ok None) /\
  (Forall (fun b => b == 0) budget -> find_decomposition budget [] = Ok (Some [])).
Proof.
  split; [reflexivity|].
  destruct budget as [|b budget].
  - split.
    + intro H. inversion H.
    + intros _. reflexivity.
  - assert (Hfd : find_decomposition (b :: budget) []
                  = Ok (if existsb (fun j => Qlt_bool 0 (nth j (b :: budget) 0))
                             (seq 0 (length (b :: budget)))
                        then None else Some [])).
    { unfold find_decomposition.
      change (check_if_no_pref_then_return_None []) with false.
      cbv iota. rewrite is_basic_case_func_no_citizens.
      change (bind (Ok false) ?k) with (k false). cbv beta iota.
      rewrite general_case_ok.
      change (zeros (length (@nil pyset)) (length (b :: budget))) with (@nil (list Q)).
      rewrite run_pure_no_citizens.
      destruct (existsb _ _); reflexivity. }
    split; intro H.
    + apply existsb_positive in H. rewrite Hfd, H. reflexivity.
    + rewrite Hfd.
      destruct (existsb _ _) eqn:E; [|reflexivity].
      apply existsb_positive in E. apply Exists_exists in E.
      destruct E as [x [Hin Hx]]. rewrite Forall_forall in H.
      apply H in Hin. lra.
Qed.

Lemma no_citizens_witness :
  find_decomposition [0; 3] [] = Ok None /\
  find_decomposition [0; 0] [] = Ok (Some []).
Proof.
  split.
  - apply (proj1 (proj2 (no_citizens [0; 3]))).
    apply Exists_cons_tl, Exists_cons_hd. reflexivity.
  - apply (proj2 (proj2 (no_citizens [0; 0]))).
    repeat constructor.
Defined.

(** ** Cells of an updated matrix *)

Lemma upd_overflow (A : Type) (l : list A) (i : nat) (a : A) :
  (length l <= i)%nat -> upd l i a = l.
Proof.
  revert i. induction l as [|h t IH]; intros [|i]; simpl; intro H;
    try reflexivity; try lia.
  rewrite IH by lia. reflexivity.
Qed.

Lemma zeros_cell (n s i j : nat) : nth j (nth i (zeros n s) []) 0 = 0.
Proof.
  unfold zeros. destruct (Nat.lt_ge_cases i n) as [Hi|Hi].
  - rewrite nth_repeat_any by exact Hi.
    destruct (Nat.lt_ge_cases j s) as [Hj|Hj].
    + apply nth_repeat_any. exact Hj.
    + apply nth_overflow. rewrite repeat_length. exact Hj.
  - rewrite (nth_overflow (repeat (repeat 0 s) n) [])
      by (rewrite repeat_length; exact Hi).
    destruct j; reflexivity.
Qed.

Lemma add_to_cell_other (d : matrix) (i j i' j' : nat) (a : Q) :
  i' <> i \/ j' <> j ->
  nth j' (nth i' (Spec.add_to d i j a) []) 0 = nth j' (nth i' d []) 0.
Proof.
  intro H. unfold Spec.add_to.
  destruct (Nat.eq_dec i' i) as [->|Hi].
  - destruct H as [H|Hj]; [congruence|].
    destruct (Nat.lt_ge_cases i (length d)) as [Hlt|Hge].
    + rewrite nth_upd_eq by exact Hlt. apply nth_upd_ne. congruence.
    + rewrite upd_overflow by exact Hge. reflexivity.
  - rewrite nth_upd_ne by congruence. reflexivity.
Qed.

(** ** The basic path in closed form *)

Lemma basic_loop_closed (budget : list Q) (ps : list pyset) :
  Forall (fun p => p <> []) ps ->
  valid_preferences (length budget) ps ->
  forall (done : matrix),
    basic_loop budget (combine (seq (length done) (length ps)) ps)
      (done ++ repeat (repeat 0 (length budget)) (length ps))
    = Ok (done ++ map (basic_row budget) ps).
Proof.
  induction ps as [|p ps IH]; intros Hne Hv done; simpl.
  - reflexivity.
  - inversion Hne as [|? ? Hp Hps]; subst.
    inversion Hv as [|? ? Hvp Hvps]; subst.
    destruct p as [|x p]; [congruence|]. simpl.
    inversion Hvp as [|? ? Hx _]; subst.
    rewrite (index_ok budget 0 Hx). simpl.
    unfold index at 1. rewrite nth_error_app2 by lia.
    rewrite Nat.sub_diag. simpl.
    rewrite store_ok by (rewrite repeat_length; exact Hx). simpl.
    assert (Hupd : upd (done ++ repeat 0 (length budget)
                          :: repeat (repeat 0 (length budget)) (length ps))
                     (length done)
                     (upd (repeat 0 (length budget)) x (nth x budget 0))
                   = (done ++ [basic_row budget (x :: p)])
                       ++ repeat (repeat 0 (length budget)) (length ps)).
    { clear. induction done as [|r done IHd]; simpl.
      - reflexivity.
      - rewrite IHd. reflexivity. }
    rewrite Hupd.
    replace (S (length done)) with (length (done ++ [basic_row budget (x :: p)]))
      by (rewrite length_app; simpl; lia).
    rewrite (IH Hps Hvps). rewrite <- app_assoc. reflexivity.
Qed.

Lemma calc_decomposition_closed (budget : list Q) (preferences : list pyset) :
  check_if_no_pref_then_return_None preferences = false ->
  valid_preferences (length budget) preferences ->
  calc_decomposition_for_basic_case budget preferences
  = Ok (map (basic_row budget) preferences).
Proof.
  intros Hc Hv. unfold calc_decomposition_for_basic_case, enumerate, zeros.
  apply (@basic_loop_closed budget preferences) with (done := []); [|exact Hv].
  apply Forall_forall. intros p Hin Hp. subst p.
  apply check_no_pref_true in Hin. congruence.
Qed.

Lemma basic_path_closed (budget : list Q) (preferences : list pyset) (d : matrix) :
  check_if_no_pref_then_return_None preferences = false ->
  is_basic_case_func budget preferences = Ok true ->
  calc_decomposition_for_basic_case budget preferences = Ok d ->
  d = map (basic_row budget) preferences.
Proof.
  intros Hc Hb Hd.
  rewrite calc_decomposition_closed in Hd.
  - inversion Hd. reflexivity.
  - exact Hc.
  - eapply is_basic_case_func_valid, Hb.
Qed.

(** ** C5: money only on endorsed subjects *)

Lemma zeros_respects (preferences : list pyset) (n s : nat) :
  respects preferences (zeros n s).
Proof. intros i j _. apply zeros_cell. Qed.

Lemma fill_respects (preferences : list pyset) (j : nat) (share : Q)
  (citizens : list nat) :
  Forall (fun i => mem j (nth i preferences []) = true) citizens ->
  forall rem d,
    respects preferences d -> respects preferences (fill j share citizens rem d).
Proof.
  induction 1 as [|i rest Hi Hr IH]; intros rem d Hd; simpl.
  - exact Hd.
  - destruct (Qle_bool rem 0); [exact Hd|].
    apply IH. intros i' j' Hm.
    rewrite add_to_cell_other; [apply Hd, Hm|].
    destruct (Nat.eq_dec i' i) as [->|]; [|left; assumption].
    right. intros ->. congruence.
Qed.

Lemma allocate_pure_respects (budget : list Q) (preferences : list pyset)
  (j : nat) (share : Q) (d : matrix) :
  respects preferences d ->
  respects preferences (snd (allocate_pure budget preferences j share d)).
Proof.
  intro Hd. unfold allocate_pure.
  destruct (_ && _)%bool; [exact Hd|].
  destruct (Qlt_bool _ _); [exact Hd|]. simpl.
  apply fill_respects; [|exact Hd].
  apply Forall_forall. intros i Hi. apply interested_spec in Hi. tauto.
Qed.

Lemma run_pure_respects (budget : list Q) (preferences : list pyset) (share : Q)
  (subjects : list nat) :
  forall d d',
    respects preferences d ->
    run_pure budget preferences share subjects d = Some d' ->
    respects preferences d'.
Proof.
  induction subjects as [|j rest IH]; intros d d' Hd H; simpl in H.
  - inversion H; subst. exact Hd.
  - destruct (fst (allocate_pure budget preferences j share d)); [|discriminate].
    eapply IH; [|exact H]. apply allocate_pure_respects, Hd.
Qed.

Lemma basic_row_other (budget : list Q) (p : pyset) (j : nat) :
  j <> hd 0%nat p -> nth j (basic_row budget p) 0 = 0.
Proof.
  intro H. unfold basic_row. rewrite nth_upd_ne by congruence.
  apply nth_repeat.
Qed.

Lemma basic_respects (budget : list Q) (preferences : list pyset) :
  check_if_no_pref_then_return_None preferences = false ->
  respects preferences (map (basic_row budget) preferences).
Proof.
  intros Hc i j Hm.
  destruct (Nat.lt_ge_cases i (length preferences)) as [Hi|Hi].
  - rewrite (nth_indep _ [] (basic_row budget [])) by (rewrite length_map; exact Hi).
    rewrite map_nth. apply basic_row_other. intros ->.
    destruct (nth i preferences []) as [|x p] eqn:E.
    + assert (Hin : In [] preferences) by (rewrite <- E; apply nth_In; exact Hi).
      apply check_no_pref_true in Hin. congruence.
    + simpl in Hm. rewrite Nat.eqb_refl in Hm. discriminate Hm.
  - rewrite (nth_overflow (map (basic_row budget) preferences) [])
      by (rewrite length_map; exact Hi).
    destruct j; reflexivity.
Qed.

Lemma find_decomposition_respects (budget : list Q) (preferences : list pyset)
  (d : matrix) :
  find_decomposition budget preferences = Ok (Some d) -> respects preferences d.
Proof.
  intro H. apply find_decomposition_inv in H.
  destruct H as [Hc [[Hb Hd] | [_ Hg]]].
  - rewrite (basic_path_closed budget preferences Hc Hb Hd).
    apply basic_respects, Hc.
  - apply general_case_inv in Hg. destruct Hg as [Hrun _].
    eapply run_pure_respects; [|exact Hrun]. apply zeros_respects.
Qed.

(** C5. Whenever [find_decomposition] returns a matrix, a strictly
    positive entry [i][j] means that subject [j] belongs to the
    preference set of citizen [i]. *)
Theorem preference_respect (budget : list Q) (preferences : list pyset)
  (d : matrix) (i j : nat) (row : list Q) (x : Q) :
  find_decomposition budget preferences = Ok (Some d) ->
  nth_error d i = Some row ->
  nth_error row j = Some x ->
  0 < x ->
  exists p, nth_error preferences i = Some p /\ In j p.
Proof.
  intros H Hrow Hx Hpos.
  apply find_decomposition_respects in H.
  apply nth_error_nth with (d := []) in Hrow.
  apply nth_error_nth with (d := 0) in Hx.
  destruct (mem j (nth i preferences [])) eqn:Hm.
  - apply mem_true in Hm.
    destruct (nth_error preferences i) as [p|] eqn:E.
    + exists p. split; [reflexivity|].
      apply nth_error_nth with (d := []) in E. rewrite <- E. exact Hm.
    + apply nth_error_None in E. rewrite nth_overflow in Hm by exact E.
      destruct Hm.
  - apply H in Hm. rewrite Hrow, Hx in Hm. rewrite Hm in Hpos. exfalso. lra.
Qed.

Lemma preference_respect_witness :
  exists p, nth_error [[0%nat]; [0%nat]] 1 = Some p /\ In 0%nat p.
Proof.
  apply (@preference_respect [5] [[0%nat]; [0%nat]] [[5 # 2]; [5 # 2]]
           1%nat 0%nat [5 # 2] (5 # 2)); reflexivity.
Defined.

(** ** Row sums and the total of a matrix under allocation *)

Lemma map_upd (A B : Type) (f : A -> B) (l : list A) (i : nat) (a : A) :
  map f (upd l i a) = upd (map f l) i (f a).
Proof.
  revert i. induction l as [|h t IH]; intros [|i]; simpl; try reflexivity.
  rewrite IH. reflexivity.
Qed.

Lemma nth_map_sum (d : matrix) (i : nat) : nth i (map sum d) 0 = sum (nth i d []).
Proof. change 0 with (sum []). apply map_nth. Qed.

Lemma mtotal_upd (d : matrix) (i : nat) (r : list Q) :
  (i < length d)%nat ->
  mtotal (upd d i r) == mtotal d - sum (nth i d []) + sum r.
Proof.
  intro H. unfold mtotal. rewrite map_upd.
  rewrite sum_upd by (rewrite length_map; exact H).
  rewrite nth_map_sum. reflexivity.
Qed.

Lemma add_to_row_sum (n s : nat) (d : matrix) (i j : nat) (a : Q) :
  shape n s d -> (i < n)%nat -> (j < s)%nat ->
  sum (nth i (Spec.add_to d i j a) []) == sum (nth i d []) + a.
Proof.
  intros Hd Hi Hj. pose proof (shape_row Hd Hi) as Hr. destruct Hd as [Hn _].
  unfold Spec.add_to. rewrite nth_upd_eq by lia.
  rewrite sum_upd by lia. lra.
Qed.

Lemma add_to_row_other (d : matrix) (i j k : nat) (a : Q) :
  k <> i -> nth k (Spec.add_to d i j a) [] = nth k d [].
Proof.
  intro H. unfold Spec.add_to. apply nth_upd_ne. congruence.
Qed.

Lemma add_to_mtotal (n s : nat) (d : matrix) (i j : nat) (a : Q) :
  shape n s d -> (i < n)%nat -> (j < s)%nat ->
  mtotal (Spec.add_to d i j a) == mtotal d + a.
Proof.
  intros Hd Hi Hj. pose proof (add_to_row_sum a Hd Hi Hj) as Hs.
  destruct Hd as [Hn _]. unfold Spec.add_to in *.
  rewrite mtotal_upd by lia. rewrite nth_upd_eq in Hs by lia. lra.
Qed.

Lemma rows_le_row (n s : nat) (share : Q) (d : matrix) (i : nat) :
  shape n s d -> rows_le share d -> (i < n)%nat -> sum (nth i d []) <= share.
Proof.
  intros [Hn _] Hle Hi. unfold rows_le in Hle. rewrite Forall_forall in Hle.
  apply Hle, nth_In. lia.
Qed.

Lemma add_to_rows_le (n s : nat) (share : Q) (d : matrix) (i j : nat) (a : Q) :
  shape n s d -> (i < n)%nat -> (j < s)%nat ->
  rows_le share d ->
  a <= Spec.remaining_capacity share d i ->
  rows_le share (Spec.add_to d i j a).
Proof.
  intros Hd Hi Hj Hle Ha. pose proof (add_to_row_sum a Hd Hi Hj) as Hs.
  destruct Hd as [Hn _]. unfold Spec.add_to, Spec.remaining_capacity in *.
  apply upd_Forall; [exact Hle|]. rewrite nth_upd_eq in Hs by lia. lra.
Qed.

Lemma add_to_nonneg (n s : nat) (d : matrix) (i j : nat) (a : Q) :
  shape n s d -> (i < n)%nat ->
  entries_nonneg d -> 0 <= a -> entries_nonneg (Spec.add_to d i j a).
Proof.
  intros [Hn _] Hi Hd Ha. unfold Spec.add_to.
  assert (Hrow : Forall (fun x => 0 <= x) (nth i d [])).
  { unfold entries_nonneg in Hd. rewrite Forall_forall in Hd.
    apply Hd, nth_In. lia. }
  apply upd_Forall; [exact Hd|]. apply upd_Forall; [exact Hrow|].
  assert (H0 : 0 <= nth j (nth i d []) 0).
  { destruct (Nat.lt_ge_cases j (length (nth i d []))) as [Hj|Hj].
    - rewrite Forall_forall in Hrow. apply Hrow, nth_In, Hj.
    - rewrite nth_overflow by exact Hj. lra. }
  lra.
Qed.

Lemma caps_nonneg (n s : nat) (share : Q) (d : matrix) (citizens : list nat) :
  shape n s d -> rows_le share d ->
  Forall (fun i => (i < n)%nat) citizens ->
  0 <= sum (map (Spec.remaining_capacity share d) citizens).
Proof.
  intros Hd Hle. induction 1 as [|i rest Hi Hr IH]; simpl.
  - rewrite sum_nil. lra.
  - rewrite sum_cons. pose proof (rows_le_row Hd Hle Hi).
    unfold Spec.remaining_capacity at 1. lra.
Qed.

Lemma caps_add_to (share : Q) (d : matrix) (i j : nat) (a : Q) (citizens : list nat) :
  ~ In i citizens ->
  map (Spec.remaining_capacity share (Spec.add_to d i j a)) citizens
  = map (Spec.remaining_capacity share d) citizens.
Proof.
  intro Hn. apply map_ext_in. intros k Hk. unfold Spec.remaining_capacity.
  rewrite add_to_row_other; [reflexivity|]. intros ->. contradiction.
Qed.

Lemma nth_map_column (d : matrix) (i j : nat) :
  nth i (map (fun r => nth j r 0) d) 0 = nth j (nth i d []) 0.
Proof.
  destruct (Nat.lt_ge_cases i (length d)) as [Hi|Hi].
  - rewrite (nth_indep _ 0 (nth j [] 0)) by (rewrite length_map; exact Hi).
    apply (map_nth (fun r => nth j r 0)).
  - rewrite (nth_overflow (map _ d)) by (rewrite length_map; exact Hi).
    rewrite (nth_overflow d) by exact Hi. destruct j; reflexivity.
Qed.

Lemma column_sum_upd (d : matrix) (i j : nat) (r : list Q) :
  (i < length d)%nat ->
  column_sum (upd d i r) j == column_sum d j - nth j (nth i d []) 0 + nth j r 0.
Proof.
  intro H. unfold column_sum. rewrite map_upd.
  rewrite sum_upd by (rewrite length_map; exact H).
  rewrite nth_map_column. reflexivity.
Qed.

Lemma add_to_column (n s : nat) (d : matrix) (i j : nat) (a : Q) :
  shape n s d -> (i < n)%nat -> (j < s)%nat ->
  column_sum (Spec.add_to d i j a) j == column_sum d j + a.
Proof.
  intros Hd Hi Hj. pose proof (shape_row Hd Hi) as Hr. destruct Hd as [Hn _].
  unfold Spec.add_to. rewrite column_sum_upd by lia.
  rewrite nth_upd_eq by lia. lra.
Qed.

Lemma add_to_column_other (n s : nat) (d : matrix) (i j k : nat) (a : Q) :
  shape n s d -> (i < n)%nat -> k <> j ->
  column_sum (Spec.add_to d i j a) k == column_sum d k.
Proof.
  intros [Hn _] Hi Hk. unfold Spec.add_to. rewrite column_sum_upd by lia.
  rewrite nth_upd_ne by congruence. lra.
Qed.

Section Fill.

Variables (n s j : nat) (share : Q).
Hypothesis Hj : (j < s)%nat.

Lemma fill_rows_le (citizens : list nat) :
  Forall (fun i => (i < n)%nat) citizens ->
  forall rem d,
    shape n s d -> rows_le share d ->
    rows_le share (fill j share citizens rem d).
Proof.
  induction 1 as [|i rest Hi Hr IH]; intros rem d Hd Hle; simpl.
  - exact Hle.
  - destruct (Qle_bool rem 0); [exact Hle|].
    apply IH; [apply add_to_shape; assumption|].
    apply add_to_rows_le with (n := n) (s := s); try assumption.
    apply py_min_le_l.
Qed.

Lemma fill_nonneg (citizens : list nat) :
  Forall (fun i => (i < n)%nat) citizens ->
  forall rem d,
    shape n s d -> rows_le share d -> entries_nonneg d ->
    entries_nonneg (fill j share citizens rem d).
Proof.
  induction 1 as [|i rest Hi Hr IH]; intros rem d Hd Hle Hnn; simpl.
  - exact Hnn.
  - destruct (Qle_bool rem 0) eqn:E; [exact Hnn|].
    apply Qle_bool_false in E.
    assert (Hcap : fill_step j share i rem d <= Spec.remaining_capacity share d i)
      by apply py_min_le_l.
    apply IH.
    + apply add_to_shape; assumption.
    + apply add_to_rows_le with (n := n) (s := s); assumption.
    + apply add_to_nonneg with (n := n) (s := s); try assumption.
      pose proof (rows_le_row Hd Hle Hi) as Hrow.
      unfold fill_step.
      destruct (py_min_cases (Spec.remaining_capacity share d i) rem)
        as [[-> _]|[-> _]]; [unfold Spec.remaining_capacity|]; lra.
Qed.

(** A quantity that grows by [a] when [a] is added to a cell of column
    [j] grows by the whole subject budget when the fill succeeds. *)
Section Measure.

Variable m : matrix -> Q.
Hypothesis m_add_to :
  forall d i a, shape n s d -> (i < n)%nat -> m (Spec.add_to d i j a) == m d + a.

Lemma fill_measure (citizens : list nat) :
  Forall (fun i => (i < n)%nat) citizens ->
  NoDup citizens ->
  forall rem d,
    shape n s d -> rows_le share d ->
    0 <= rem ->
    rem <= sum (map (Spec.remaining_capacity share d) citizens) ->
    m (fill j share citizens rem d) == m d + rem.
Proof.
  induction 1 as [|i rest Hi Hr IH]; intros Hnd rem d Hd Hle H0 Hcap; simpl.
  - simpl in Hcap. rewrite sum_nil in Hcap. lra.
  - inversion Hnd as [|? ? Hni Hnd']; subst.
    destruct (Qle_bool rem 0) eqn:E.
    + apply Qle_bool_iff in E. lra.
    + apply Qle_bool_false in E.
      simpl in Hcap. rewrite sum_cons in Hcap.
      pose proof (caps_nonneg Hd Hle Hr) as Hrest.
      pose proof (m_add_to (fill_step j share i rem d) Hd Hi) as Htot.
      assert (Hshape : shape n s (Spec.add_to d i j (fill_step j share i rem d)))
        by (apply add_to_shape; assumption).
      assert (Hle' : rows_le share (Spec.add_to d i j (fill_step j share i rem d))).
      { apply add_to_rows_le with (n := n) (s := s); try assumption.
        apply py_min_le_l. }
      rewrite (IH Hnd' _ _ Hshape Hle').
      * lra.
      * pose proof (py_min_le_r (Spec.remaining_capacity share d i) rem).
        unfold fill_step. lra.
      * rewrite caps_add_to by exact Hni. unfold fill_step.
        destruct (py_min_cases (Spec.remaining_capacity share d i) rem)
          as [[-> _]|[-> _]]; lra.
Qed.

End Measure.

Lemma fill_mtotal (citizens : list nat) :
  Forall (fun i => (i < n)%nat) citizens ->
  NoDup citizens ->
  forall rem d,
    shape n s d -> rows_le share d ->
    0 <= rem ->
    rem <= sum (map (Spec.remaining_capacity share d) citizens) ->
    mtotal (fill j share citizens rem d) == mtotal d + rem.
Proof.
  apply fill_measure. intros d i a Hd Hi.
  apply add_to_mtotal with (n := n) (s := s); assumption.
Qed.

Lemma fill_column (citizens : list nat) :
  Forall (fun i => (i < n)%nat) citizens ->
  NoDup citizens ->
  forall rem d,
    shape n s d -> rows_le share d ->
    0 <= rem ->
    rem <= sum (map (Spec.remaining_capacity share d) citizens) ->
    column_sum (fill j share citizens rem d) j == column_sum d j + rem.
Proof.
  apply (fill_measure (fun d => column_sum d j)). intros d i a Hd Hi.
  apply add_to_column with (n := n) (s := s); assumption.
Qed.

Lemma fill_column_other (k : nat) (citizens : list nat) :
  k <> j ->
  Forall (fun i => (i < n)%nat) citizens ->
  forall rem d,
    shape n s d ->
    column_sum (fill j share citizens rem d) k == column_sum d k.
Proof.
  intros Hk. induction 1 as [|i rest Hi Hr IH]; intros rem d Hd; simpl.
  - reflexivity.
  - destruct (Qle_bool rem 0); [reflexivity|].
    rewrite IH by (apply add_to_shape; assumption).
    apply add_to_column_other with (n := n) (s := s); assumption.
Qed.

End Fill.

(** ** Invariants of the general path *)

Lemma sum_nonneg (l : list Q) : Forall (fun x => 0 <= x) l -> 0 <= sum l.
Proof.
  induction 1 as [|x l Hx Hl IH].
  - rewrite sum_nil. lra.
  - rewrite sum_cons. lra.
Qed.

Lemma nonneg_nth (budget : list Q) (j : nat) : nonneg budget -> 0 <= nth j budget 0.
Proof.
  intro H. destruct (Nat.lt_ge_cases j (length budget)) as [Hj|Hj].
  - unfold nonneg in H. rewrite Forall_forall in H. apply H, nth_In, Hj.
  - rewrite nth_overflow by exact Hj. lra.
Qed.

Lemma of_nat_pos (n : nat) : (0 < n)%nat -> 0 < of_nat n.
Proof.
  intro H. unfold of_nat. change 0 with (inject_Z 0).
  rewrite <- Zlt_Qlt. lia.
Qed.

Lemma of_nat_succ (n : nat) : of_nat (S n) == of_nat n + 1.
Proof.
  unfold of_nat. rewrite Nat2Z.inj_succ. unfold Z.succ.
  rewrite inject_Z_plus. reflexivity.
Qed.

Lemma share_of_nonneg (budget : list Q) (preferences : list pyset) :
  nonneg budget -> 0 <= share_of budget preferences.
Proof.
  intro H. apply sum_nonneg in H.
  unfold share_of, calculate_total_budget_and_share. simpl.
  destruct (length preferences) as [|n] eqn:E; simpl.
  - lra.
  - apply Qle_shift_div_l.
    + apply of_nat_pos. lia.
    + lra.
Qed.

Lemma share_of_total (budget : list Q) (preferences : list pyset) :
  (0 < length preferences)%nat ->
  of_nat (length preferences) * share_of budget preferences == sum budget.
Proof.
  intro H. rewrite share_of_pos by exact H.
  apply Qmult_div_r. pose proof (of_nat_pos H). lra.
Qed.

Lemma zeros_rows_le (n s : nat) (share : Q) : 0 <= share -> rows_le share (zeros n s).
Proof.
  intro H. unfold rows_le, zeros. apply Forall_forall. intros r Hr.
  apply repeat_spec in Hr. subst r. rewrite sum_repeat_0. exact H.
Qed.

Lemma zeros_nonneg (n s : nat) : entries_nonneg (zeros n s).
Proof.
  unfold entries_nonneg, zeros. apply Forall_forall. intros r Hr.
  apply repeat_spec in Hr. subst r. apply Forall_forall. intros x Hx.
  apply repeat_spec in Hx. subst x. lra.
Qed.

Lemma zeros_mtotal (n s : nat) : mtotal (zeros n s) == 0.
Proof.
  unfold mtotal, zeros. induction n as [|n IH]; simpl.
  - reflexivity.
  - rewrite sum_cons, sum_repeat_0, IH. lra.
Qed.

Lemma map_nth_seq (l : list Q) :
  map (fun j => nth j l 0) (seq 0 (length l)) = l.
Proof.
  induction l as [|x l IH]; simpl.
  - reflexivity.
  - rewrite <- seq_shift, map_map. simpl. rewrite IH. reflexivity.
Qed.

Section GeneralPath.

Variables (budget : list Q) (preferences : list pyset) (share : Q).

Lemma allocate_pure_rows_le (j : nat) (d : matrix) :
  (j < length budget)%nat -> shape (length preferences) (length budget) d -> rows_le share d ->
  rows_le share (snd (allocate_pure budget preferences j share d)).
Proof.
  intros Hj Hd Hle. unfold allocate_pure.
  destruct (_ && _)%bool; [exact Hle|].
  destruct (Qlt_bool _ _); [exact Hle|]. simpl.
  apply fill_rows_le with (n := length preferences) (s := length budget); try assumption.
  apply interested_below.
Qed.

Lemma allocate_pure_nonneg (j : nat) (d : matrix) :
  (j < length budget)%nat -> shape (length preferences) (length budget) d -> rows_le share d -> entries_nonneg d ->
  entries_nonneg (snd (allocate_pure budget preferences j share d)).
Proof.
  intros Hj Hd Hle Hnn. unfold allocate_pure.
  destruct (_ && _)%bool; [exact Hnn|].
  destruct (Qlt_bool _ _); [exact Hnn|]. simpl.
  apply fill_nonneg with (n := length preferences) (s := length budget); try assumption.
  apply interested_below.
Qed.

Lemma allocate_pure_mtotal (j : nat) (d : matrix) :
  (j < length budget)%nat -> shape (length preferences) (length budget) d -> rows_le share d ->
  0 <= nth j budget 0 ->
  fst (allocate_pure budget preferences j share d) = true ->
  mtotal (snd (allocate_pure budget preferences j share d))
  == mtotal d + nth j budget 0.
Proof.
  intros Hj Hd Hle Hb. unfold allocate_pure.
  destruct (_ && _)%bool; [discriminate|].
  destruct (Qlt_bool _ _) eqn:E; [discriminate|]. simpl. intros _.
  apply Qlt_bool_false in E.
  apply fill_mtotal with (n := length preferences) (s := length budget); try assumption.
  - apply interested_below.
  - apply interested_NoDup.
Qed.

Lemma run_pure_invariants (subjects : list nat) :
  Forall (fun j => (j < length budget)%nat) subjects ->
  nonneg budget ->
  forall d d',
    shape (length preferences) (length budget) d -> rows_le share d -> entries_nonneg d ->
    run_pure budget preferences share subjects d = Some d' ->
    rows_le share d' /\ entries_nonneg d' /\
    mtotal d' == mtotal d + sum (map (fun j => nth j budget 0) subjects).
Proof.
  intros Hs Hb.
  induction Hs as [|j rest Hj Hr IH]; intros d d' Hd Hle Hnn H; simpl in H.
  - inversion H; subst. simpl. rewrite sum_nil. repeat split; try assumption. lra.
  - destruct (fst (allocate_pure budget preferences j share d)) eqn:E;
      [|discriminate].
    pose proof (allocate_pure_mtotal Hj Hd Hle (nonneg_nth j Hb) E) as Ht.
    apply IH in H.
    + destruct H as [Hle' [Hnn' Ht']]. repeat split; try assumption.
      simpl. rewrite sum_cons. lra.
    + apply allocate_pure_shape; [reflexivity | exact Hd].
    + apply allocate_pure_rows_le; assumption.
    + apply allocate_pure_nonneg; assumption.
Qed.

End GeneralPath.

Lemma general_run_invariants (budget : list Q) (preferences : list pyset)
  (d : matrix) :
  nonneg budget ->
  run_pure budget preferences (share_of budget preferences)
    (seq 0 (length budget)) (zeros (length preferences) (length budget)) = Some d ->
  shape (length preferences) (length budget) d /\
  rows_le (share_of budget preferences) d /\
  entries_nonneg d /\
  mtotal d == sum budget.
Proof.
  intros Hb H.
  pose proof (zeros_shape (length preferences) (length budget)) as Hz.
  split; [eapply run_pure_shape; [reflexivity | exact Hz | exact H]|].
  apply run_pure_invariants in H; try assumption.
  - destruct H as [Hle [Hnn Ht]]. repeat split; try assumption.
    rewrite map_nth_seq, zeros_mtotal in Ht. lra.
  - apply seq_below.
  - apply zeros_rows_le, share_of_nonneg, Hb.
  - apply zeros_nonneg.
Qed.

(** ** C9: entries are non-negative *)

Lemma basic_nonneg (budget : list Q) (preferences : list pyset) :
  nonneg budget -> entries_nonneg (map (basic_row budget) preferences).
Proof.
  intro Hb. unfold entries_nonneg. apply Forall_forall. intros r Hr.
  apply in_map_iff in Hr. destruct Hr as [p [<- _]]. unfold basic_row.
  apply upd_Forall.
  - apply Forall_forall. intros x Hx. apply repeat_spec in Hx. subst x. lra.
  - apply nonneg_nth, Hb.
Qed.

(** C9, as stated, fails in binary64 arithmetic.  With budget
    [0.3, 0.7, 0.7] (all non-negative) and two citizens who prefer every
    subject, the general path returns a matrix whose entry [0][2] is
    negative: after subject 1 the sum of row 0 is rounded just above the
    share, so the remaining capacity of citizen 0 for subject 2 is
    negative and [min] selects it. *)
Lemma entries_negative_in_binary64 :
  forallb (fun b => PrimFloat.leb 0%float b) Float64.budget_03_07_07 = true /\
  exists d row x,
    Float64.find_decomposition Float64.budget_03_07_07
      [[0; 1; 2]; [0; 1; 2]]%nat = Ok (Some d) /\
    nth_error d 0 = Some row /\
    nth_error row 2 = Some x /\
    PrimFloat.ltb x 0%float = true.
Proof.
  split; [vm_compute; reflexivity|].
  eexists. eexists. eexists.
  split; [vm_compute; reflexivity|].
  split; [reflexivity|]. split; [reflexivity|].
  vm_compute. reflexivity.
Qed.

(** C9 (amended). In exact arithmetic, when every budget entry is
    non-negative, every entry of a matrix returned by
    [find_decomposition] is non-negative. *)
Theorem entries_non_negative (budget : list Q) (preferences : list pyset)
  (d : matrix) :
  nonneg budget ->
  find_decomposition budget preferences = Ok (Some d) ->
  forall row x, In row d -> In x row -> 0 <= x.
Proof.
  intros Hb H.
  assert (Hnn : entries_nonneg d).
  { apply find_decomposition_inv in H.
    destruct H as [Hc [[Hbasic Hd] | [_ Hg]]].
    - rewrite (basic_path_closed budget preferences Hc Hbasic Hd).
      apply basic_nonneg, Hb.
    - apply general_case_inv in Hg. destruct Hg as [Hrun _].
      apply (@general_run_invariants budget preferences d Hb Hrun). }
  intros row x Hrow Hx. unfold entries_nonneg in Hnn.
  rewrite Forall_forall in Hnn. apply Hnn in Hrow.
  rewrite Forall_forall in Hrow. apply Hrow, Hx.
Qed.

Lemma entries_non_negative_witness : 0 <= 5 # 2.
Proof.
  apply (@entries_non_negative [5] [[0%nat]; [0%nat]] [[5 # 2]; [5 # 2]])
    with (row := [5 # 2]).
  - repeat constructor. discriminate.
  - reflexivity.
  - simpl. auto.
  - simpl. auto.
Defined.

(** ** C10: the verifier after a complete allocation *)

Lemma sum_le_bound (xs : list Q) (s : Q) :
  Forall (fun x => x <= s) xs -> sum xs <= of_nat (length xs) * s.
Proof.
  induction 1 as [|x xs Hx Hxs IH].
  - rewrite sum_nil. change (of_nat (length (@nil Q))) with 0. lra.
  - rewrite sum_cons. simpl length. rewrite of_nat_succ. lra.
Qed.

Lemma rows_full (xs : list Q) (s : Q) :
  Forall (fun x => x <= s) xs ->
  of_nat (length xs) * s <= sum xs ->
  Forall (fun x => x == s) xs.
Proof.
  induction 1 as [|x xs Hx Hxs IH]; intro H.
  - constructor.
  - rewrite sum_cons in H. simpl length in H. rewrite of_nat_succ in H.
    pose proof (sum_le_bound Hxs) as Hb.
    constructor; [lra|]. apply IH. lra.
Qed.

(** C10. With exact arithmetic, non-negative budgets and at least one
    citizen: when the allocation loop of the general path succeeds for
    every subject, every row sums to exactly the share, so
    [verify_allocation] returns true and the general path returns the
    matrix; the sentinel cannot be returned at the verification step. *)
Theorem verifier_never_rejects (budget : list Q) (preferences : list pyset)
  (d : matrix) :
  nonneg budget ->
  (0 < length preferences)%nat ->
  allocate_all budget preferences (share_of budget preferences)
    (seq 0 (length budget)) (zeros (length preferences) (length budget))
  = Ok (Some d) ->
  (forall row, In row d -> sum row == share_of budget preferences) /\
  verify_allocation d (share_of budget preferences) = true /\
  general_case budget preferences = Ok (Some d).
Proof.
  intros Hb Hn H.
  assert (Hrows : forall row, In row d -> sum row == share_of budget preferences).
  { pose proof H as Hrun.
    rewrite allocate_all_ok in Hrun by (apply seq_below || apply zeros_shape).
    inversion Hrun as [Hrun']. clear Hrun.
    destruct (@general_run_invariants budget preferences d Hb Hrun')
      as [[Hlen _] [Hle [_ Ht]]].
    pose proof (share_of_total budget preferences Hn) as Hshare.
    assert (Hfull : Forall (fun x => x == share_of budget preferences) (map sum d)).
    { apply rows_full.
      - apply Forall_map. exact Hle.
      - rewrite length_map, Hlen. fold (mtotal d). lra. }
    rewrite Forall_map, Forall_forall in Hfull. exact Hfull. }
  assert (Hver : verify_allocation d (share_of budget preferences) = true).
  { apply verify_allocation_spec. intros row Hrow.
    assert (E : sum row - share_of budget preferences == 0)
      by (rewrite (Hrows row Hrow); lra).
    rewrite E. reflexivity. }
  repeat split; try assumption.
  unfold general_case. cbv zeta. fold (share_of budget preferences).
  rewrite H. simpl. rewrite Hver. reflexivity.
Qed.

Lemma verifier_never_rejects_witness :
  verify_allocation [[5 # 2]; [5 # 2]] (share_of [5] [[0%nat]; [0%nat]]) = true.
Proof.
  apply (@verifier_never_rejects [5] [[0%nat]; [0%nat]] [[5 # 2]; [5 # 2]]).
  - repeat constructor. discriminate.
  - simpl. lia.
  - reflexivity.
Defined.

(** ** C4: the general path against the specification's wording *)

Lemma Qle_bool_Qeq_bool (rem : Q) : 0 <= rem -> Qle_bool rem 0 = Qeq_bool rem 0.
Proof.
  intro H. destruct (Qeq_bool rem 0) eqn:E.
  - apply Qeq_bool_iff in E. apply Qle_bool_iff. lra.
  - destruct (Qle_bool rem 0) eqn:E'; [|reflexivity].
    apply Qle_bool_iff in E'.
    assert (Heq : rem == 0) by lra.
    apply Qeq_bool_iff in Heq. congruence.
Qed.

Lemma fill_greedy (j : nat) (share : Q) (citizens : list nat) :
  forall rem d,
    0 <= rem -> fill j share citizens rem d = Spec.greedy j share citizens rem d.
Proof.
  induction citizens as [|i rest IH]; intros rem d H; simpl.
  - reflexivity.
  - rewrite (Qle_bool_Qeq_bool H).
    destruct (Qeq_bool rem 0); [reflexivity|].
    unfold fill_step. apply IH.
    pose proof (py_min_le_r (Spec.remaining_capacity share d i) rem). lra.
Qed.

Lemma allocate_pure_spec (budget : list Q) (preferences : list pyset) (j : nat)
  (share : Q) (d : matrix) :
  0 <= nth j budget 0 ->
  allocate_pure budget preferences j share d
  = match Spec.allocate_subject budget preferences j share d with
    | None => (false, d)
    | Some d' => (true, d')
    end.
Proof.
  intro Hb. unfold allocate_pure, Spec.allocate_subject.
  destruct (Spec.interested preferences j) as [|i rest] eqn:E.
  - simpl. change (sum []) with 0.
    destruct (Qlt_bool 0 (nth j budget 0)); reflexivity.
  - cbn [length Nat.eqb andb].
    destruct (Qlt_bool _ _); [reflexivity|].
    rewrite (fill_greedy _ _ _ _ Hb). reflexivity.
Qed.

Lemma run_pure_spec (budget : list Q) (preferences : list pyset) (share : Q)
  (subjects : list nat) :
  nonneg budget ->
  forall d,
    run_pure budget preferences share subjects d
    = Spec.run budget preferences share subjects d.
Proof.
  intro Hb. induction subjects as [|j rest IH]; intro d; simpl.
  - reflexivity.
  - rewrite (@allocate_pure_spec budget preferences j share d (nonneg_nth j Hb)).
    destruct (Spec.allocate_subject budget preferences j share d); simpl.
    + apply IH.
    + reflexivity.
Qed.

(** C4. For non-negative budgets the general path raises no exception and
    computes what the specification describes: subjects in increasing
    index order; a subject whose interested citizens' total remaining
    capacity is strictly below its budget fails the run; otherwise the
    interested citizens, in ascending index order, each receive
    min(remaining capacity, remaining subject budget), stopping once the
    remaining subject budget is zero.  The verifier then decides whether
    the matrix is returned. *)
Theorem general_path_refines_spec (budget : list Q) (preferences : list pyset) :
  nonneg budget ->
  (forall share,
     allocate_all budget preferences share (seq 0 (length budget))
       (zeros (length preferences) (length budget))
     = Ok (Spec.run budget preferences share (seq 0 (length budget))
             (zeros (length preferences) (length budget)))) /\
  general_case budget preferences
  = Ok (match Spec.run budget preferences (share_of budget preferences)
                (seq 0 (length budget))
                (zeros (length preferences) (length budget)) with
        | None => None
        | Some d =>
            if verify_allocation d (share_of budget preferences)
            then Some d else None
        end).
Proof.
  intro Hb. split.
  - intro share.
    rewrite allocate_all_ok by (apply seq_below || apply zeros_shape).
    rewrite run_pure_spec by exact Hb. reflexivity.
  - rewrite general_case_ok. fold (share_of budget preferences).
    rewrite run_pure_spec by exact Hb. reflexivity.
Qed.

Lemma general_path_refines_spec_witness :
  general_case [400; 50; 50; 0]
    [[0; 1]; [0; 2]; [0; 3]; [1; 2]; [0]]%nat
  = Ok (match Spec.run [400; 50; 50; 0]
                [[0; 1]; [0; 2]; [0; 3]; [1; 2]; [0]]%nat
                (share_of [400; 50; 50; 0]
                   [[0; 1]; [0; 2]; [0; 3]; [1; 2]; [0]]%nat)
                (seq 0 4) (zeros 5 4) with
        | None => None
        | Some d =>
            if verify_allocation d
                 (share_of [400; 50; 50; 0]
                    [[0; 1]; [0; 2]; [0; 3]; [1; 2]; [0]]%nat)
            then Some d else None
        end).
Proof.
  apply (proj2 (@general_path_refines_spec [400; 50; 50; 0]
                  [[0; 1]; [0; 2]; [0; 3]; [1; 2]; [0]]%nat
                  ltac:(repeat constructor; discriminate))).
Defined.

(** ** Column conservation on the general path *)

Lemma zeros_column (n s j : nat) : column_sum (zeros n s) j == 0.
Proof.
  unfold column_sum, zeros. induction n as [|n IH]; simpl.
  - reflexivity.
  - rewrite sum_cons, IH, nth_repeat. lra.
Qed.

Lemma allocate_pure_column_other (budget : list Q) (preferences : list pyset)
  (share : Q) (j k : nat) (d : matrix) :
  k <> j ->
  shape (length preferences) (length budget) d ->
  column_sum (snd (allocate_pure budget preferences j share d)) k
  == column_sum d k.
Proof.
  intros Hk Hd. unfold allocate_pure.
  destruct (_ && _)%bool; [reflexivity|].
  destruct (Qlt_bool _ _); [reflexivity|]. simpl.
  apply fill_column_other
    with (n := length preferences) (s := length budget); try assumption.
  apply interested_below.
Qed.

Lemma allocate_pure_column (budget : list Q) (preferences : list pyset)
  (share : Q) (j : nat) (d : matrix) :
  (j < length budget)%nat ->
  shape (length preferences) (length budget) d ->
  rows_le share d ->
  0 <= nth j budget 0 ->
  fst (allocate_pure budget preferences j share d) = true ->
  column_sum (snd (allocate_pure budget preferences j share d)) j
  == column_sum d j + nth j budget 0.
Proof.
  intros Hj Hd Hle Hb. unfold allocate_pure.
  destruct (_ && _)%bool; [discriminate|].
  destruct (Qlt_bool _ _) eqn:E; [discriminate|]. simpl. intros _.
  apply Qlt_bool_false in E.
  apply fill_column
    with (n := length preferences) (s := length budget); try assumption.
  - apply interested_below.
  - apply interested_NoDup.
Qed.

Lemma run_pure_column_other (budget : list Q) (preferences : list pyset)
  (share : Q) (k : nat) (subjects : list nat) :
  ~ In k subjects ->
  forall d d',
    shape (length preferences) (length budget) d ->
    run_pure budget preferences share subjects d = Some d' ->
    column_sum d' k == column_sum d k.
Proof.
  induction subjects as [|j rest IH]; intros Hk d d' Hd H; simpl in H.
  - inversion H; subst. reflexivity.
  - destruct (fst (allocate_pure budget preferences j share d)); [|discriminate].
    apply IH in H.
    + rewrite H. apply allocate_pure_column_other; [|exact Hd].
      intros ->. apply Hk. left. reflexivity.
    + intro Hin. apply Hk. right. exact Hin.
    + apply allocate_pure_shape; [reflexivity | exact Hd].
Qed.

Lemma run_pure_column (budget : list Q) (preferences : list pyset)
  (share : Q) (k : nat) (subjects : list nat) :
  nonneg budget ->
  Forall (fun j => (j < length budget)%nat) subjects ->
  NoDup subjects ->
  In k subjects ->
  forall d d',
    shape (length preferences) (length budget) d ->
    rows_le share d ->
    run_pure budget preferences share subjects d = Some d' ->
    column_sum d' k == column_sum d k + nth k budget 0.
Proof.
  intros Hb Hs. induction Hs as [|j rest Hj Hr IH];
    intros Hnd Hin d d' Hd Hle H; simpl in H.
  - destruct Hin.
  - inversion Hnd as [|? ? Hnj Hnd']; subst.
    destruct (fst (allocate_pure budget preferences j share d)) eqn:E;
      [|discriminate].
    assert (Hd1 : shape (length preferences) (length budget)
                    (snd (allocate_pure budget preferences j share d)))
      by (apply allocate_pure_shape; [reflexivity | exact Hd]).
    destruct (Nat.eq_dec k j) as [->|Hne].
    + rewrite (@run_pure_column_other budget preferences share j rest Hnj _ _ Hd1 H).
      apply allocate_pure_column; try assumption. apply nonneg_nth, Hb.
    + destruct Hin as [Hin|Hin]; [congruence|].
      rewrite (IH Hnd' Hin _ _ Hd1
                 (@allocate_pure_rows_le budget preferences share j d Hj Hd Hle) H).
      rewrite allocate_pure_column_other by assumption. reflexivity.
Qed.

(** X11. On the general path with non-negative budgets every column of a
    returned matrix sums to the budget of its subject. *)
Lemma general_path_column_conservation (budget : list Q) (preferences : list pyset)
  (d : matrix) (j : nat) :
  nonneg budget ->
  is_basic_case_func budget preferences = Ok false ->
  find_decomposition budget preferences = Ok (Some d) ->
  (j < length budget)%nat ->
  column_sum d j == nth j budget 0.
Proof.
  intros Hb Hbasic H Hj. apply find_decomposition_inv in H.
  destruct H as [_ [[Hb' _] | [_ H]]]; [congruence|].
  apply general_case_inv in H. destruct H as [Hrun _].
  rewrite (@run_pure_column budget preferences (share_of budget preferences) j
             (seq 0 (length budget)) Hb (seq_below (length budget))
             (seq_NoDup (length budget) 0) ltac:(apply in_seq; lia)
             _ _ (zeros_shape (length preferences) (length budget))
             (@zeros_rows_le _ _ _ (@share_of_nonneg budget preferences Hb)) Hrun).
  rewrite zeros_column. lra.
Qed.

(** ** C2 and C3: a citizen with two preferences on the basic path *)

(** C2. The claim fails on the code.  With one citizen who prefers both
    subjects no preference set is empty, every subject occurs exactly
    once and the total budget 10 is at least N = 1, so the detector
    accepts the input; the basic path then credits only the first
    preferred subject and the budget of the other subject is placed
    nowhere, in either iteration order of the set. *)
Theorem basic_case_drops_second_preference :
  check_if_no_pref_then_return_None [[0; 1]%nat] = false /\
  is_basic_case_func [5; 5] [[0; 1]%nat] = Ok true /\
  find_decomposition [5; 5] [[0; 1]%nat] = Ok (Some [[5; 0]]) /\
  find_decomposition [5; 5] [[1; 0]%nat] = Ok (Some [[0; 5]]).
Proof. repeat split. Qed.

(** C3. The claim fails on the code at the same input: the matrix is
    returned, column 1 sums to 0 and the budget of subject 1 is 5. *)
Theorem column_conservation_fails_on_basic_path :
  find_decomposition [5; 5] [[0; 1]%nat] = Ok (Some [[5; 0]]) /\
  column_sum [[5; 0]] 1 == 0 /\
  ~ Qabs (column_sum [[5; 0]] 1 - nth 1 [5; 5] 0) < tolerance.
Proof.
  split; [reflexivity|]. split; [reflexivity|].
  vm_compute. intro H. discriminate H.
Qed.

(** * Further properties of the program *)

(** ** [find_interested_citizens] *)

Lemma seq_sorted (a n : nat) : StronglySorted lt (seq a n).
Proof.
  revert a. induction n as [|n IH]; intro a; simpl; constructor.
  - apply IH.
  - apply Forall_forall. intros x Hx. apply in_seq in Hx. lia.
Qed.

Lemma filter_sorted (f : nat -> bool) (l : list nat) :
  StronglySorted lt l -> StronglySorted lt (filter f l).
Proof.
  induction 1 as [|x l Hl IH Hx]; simpl.
  - constructor.
  - destruct (f x); [|exact IH]. constructor; [exact IH|].
    apply Forall_forall. intros y Hy. apply filter_In in Hy.
    rewrite Forall_forall in Hx. apply Hx. tauto.
Qed.

(** X1. Asked for the first [n] citizens, with [n] at most the number of
    citizens, [find_interested_citizens] raises nothing and returns, in
    strictly ascending order, exactly the citizens below [n] whose
    preference set contains the subject. *)
Theorem find_interested_citizens_sorted (preferences : list pyset) (j n : nat) :
  (n <= length preferences)%nat ->
  exists l,
    find_interested_citizens preferences j n = Ok l /\
    StronglySorted lt l /\
    forall i, In i l <-> (i < n)%nat /\ In j (nth i preferences []).
Proof.
  intro Hn.
  exists (filter (fun i => mem j (nth i preferences [])) (seq 0 n)).
  split; [|split].
  - unfold find_interested_citizens. apply interested_in_ok.
    apply Forall_forall. intros i Hi. apply in_seq in Hi. lia.
  - apply filter_sorted, seq_sorted.
  - intro i. rewrite filter_In, in_seq, mem_true. intuition lia.
Qed.

Lemma find_interested_citizens_sorted_witness :
  exists l,
    find_interested_citizens [[0; 1]; [2]; [1]]%nat 1 3 = Ok l /\
    StronglySorted lt l /\
    forall i, In i l <-> (i < 3)%nat /\ In 1%nat (nth i [[0; 1]; [2]; [1]]%nat []).
Proof.
  apply (@find_interested_citizens_sorted [[0; 1]; [2]; [1]]%nat 1 3).
  simpl. lia.
Defined.

Lemma interested_in_overflow (preferences : list pyset) (j m : nat) :
  forall a,
    (a <= length preferences)%nat ->
    (length preferences < a + m)%nat ->
    interested_in preferences j (seq a m) = Raise IndexError.
Proof.
  induction m as [|m IH]; intros a Ha Hlt; simpl.
  - lia.
  - destruct (Nat.eq_dec a (length preferences)) as [->|Hne].
    + unfold index.
      rewrite (proj2 (nth_error_None preferences (length preferences)))
        by apply Nat.le_refl.
      reflexivity.
    + rewrite (index_ok preferences [] (i := a)) by lia. simpl.
      rewrite IH by lia. reflexivity.
Qed.

(** X2. Asked for more citizens than there are, [find_interested_citizens]
    raises [IndexError]. *)
Theorem find_interested_citizens_overflow (preferences : list pyset) (j n : nat) :
  (length preferences < n)%nat ->
  find_interested_citizens preferences j n = Raise IndexError.
Proof.
  intro H. unfold find_interested_citizens.
  apply interested_in_overflow; lia.
Qed.

Lemma find_interested_citizens_overflow_witness :
  find_interested_citizens [[0%nat]] 0 2 = Raise IndexError.
Proof.
  apply (@find_interested_citizens_overflow [[0%nat]] 0 2). simpl. lia.
Defined.

(** ** The basic-case detector, exactly *)

Lemma nth_upd (A : Type) (l : list A) (i k : nat) (a d : A) :
  (i < length l)%nat ->
  nth k (upd l i a) d = if Nat.eqb k i then a else nth k l d.
Proof.
  intro H. destruct (Nat.eqb_spec k i) as [->|Hne].
  - apply nth_upd_eq. exact H.
  - apply nth_upd_ne. congruence.
Qed.

Lemma count_citizen_exact (ps : pyset) :
  forall c c',
    count_citizen ps c = Ok c' ->
    forall k, nth k c' 0%nat = (nth k c 0 + count_occ Nat.eq_dec ps k)%nat.
Proof.
  induction ps as [|p ps IH]; intros c c' H k; simpl in H.
  - inversion H; subst. simpl. lia.
  - apply bind_Ok_inv in H. destruct H as [x [Hx H]].
    apply (index_inv _ _ 0%nat) in Hx. destruct Hx as [Hp <-].
    apply bind_Ok_inv in H. destruct H as [c1 [Hc1 H]].
    apply store_inv in Hc1. destruct Hc1 as [_ ->].
    rewrite (IH _ _ H k), (nth_upd _ k _ 0%nat Hp). simpl.
    destruct (Nat.eq_dec p k) as [->|Hne].
    + rewrite Nat.eqb_refl. lia.
    + destruct (Nat.eqb_spec k p); [congruence | lia].
Qed.

Lemma count_all_exact (preferences : list pyset) :
  forall c c',
    count_all preferences c = Ok c' ->
    length c' = length c /\
    forall k, nth k c' 0%nat = (nth k c 0 + occurrences k preferences)%nat.
Proof.
  induction preferences as [|p ps IH]; intros c c' H; simpl in H.
  - inversion H; subst. split; [reflexivity|]. intro k.
    unfold occurrences. simpl. lia.
  - apply bind_Ok_inv in H. destruct H as [c1 [Hc1 H]].
    pose proof (count_citizen_exact _ _ Hc1) as Hk1.
    apply count_citizen_inv in Hc1. destruct Hc1 as [_ Hl1].
    apply IH in H. destruct H as [Hl Hk]. split; [congruence|].
    intro k. rewrite Hk, Hk1. unfold occurrences. simpl. lia.
Qed.

Lemma forallb_nth (f : nat -> bool) (c : list nat) :
  forallb f c = true <-> forall k, (k < length c)%nat -> f (nth k c 0%nat) = true.
Proof.
  rewrite forallb_forall. split.
  - intros H k Hk. apply H, nth_In, Hk.
  - intros H x Hx. destruct (In_nth _ _ 0%nat Hx) as [k [Hk <-]]. apply H, Hk.
Qed.

Lemma is_basic_case_func_iff (budget : list Q) (preferences : list pyset)
  (b : bool) :
  is_basic_case_func budget preferences = Ok b ->
  (b = true <->
   (forall k, (k < length budget)%nat -> occurrences k preferences = 1%nat) /\
   of_nat (length preferences) <= sum budget).
Proof.
  unfold is_basic_case_func. intro H.
  apply bind_Ok_inv in H. destruct H as [c [Hc H]].
  inversion H as [Hb]. clear H Hb.
  apply count_all_exact in Hc. destruct Hc as [Hl Hk].
  rewrite repeat_length in Hl.
  rewrite andb_true_iff, forallb_nth, Qle_bool_iff, Hl.
  assert (Hiff : forall k, (k < length budget)%nat ->
                 (Nat.eqb (nth k c 0%nat) 1 = true
                  <-> occurrences k preferences = 1%nat)).
  { intros k Hlt. rewrite Nat.eqb_eq, Hk, nth_repeat_any by exact Hlt.
    simpl. reflexivity. }
  split; intros [H1 H2]; (split; [|exact H2]); intros k Hlt;
    apply (Hiff k Hlt), H1, Hlt.
Qed.

(** X3. When [is_basic_case_func] returns, it returns true exactly when
    every subject is listed exactly once over all preference sets and the
    total budget is at least the number of citizens. *)
Theorem is_basic_case_func_exact (budget : list Q) (preferences : list pyset)
  (b : bool) :
  is_basic_case_func budget preferences = Ok b ->
  (b = true <->
   (forall k, (k < length budget)%nat -> occurrences k preferences = 1%nat) /\
   of_nat (length preferences) <= sum budget).
Proof. apply is_basic_case_func_iff. Qed.

Lemma is_basic_case_func_exact_witness :
  true = true <->
  (forall k, (k < length [0; 100])%nat ->
             occurrences k [[0%nat]; [1%nat]] = 1%nat) /\
  of_nat (length [[0%nat]; [1%nat]]) <= sum [0; 100].
Proof.
  apply (@is_basic_case_func_exact [0; 100] [[0%nat]; [1%nat]] true).
  reflexivity.
Defined.

(** ** Shape at the top level *)

Lemma basic_shape (budget : list Q) (preferences : list pyset) :
  shape (length preferences) (length budget) (map (basic_row budget) preferences).
Proof.
  split.
  - apply length_map.
  - apply Forall_forall. intros r Hr. apply in_map_iff in Hr.
    destruct Hr as [p [<- _]]. unfold basic_row.
    rewrite length_upd. apply repeat_length.
Qed.

Lemma find_decomposition_shape_aux (budget : list Q) (preferences : list pyset)
  (d : matrix) :
  find_decomposition budget preferences = Ok (Some d) ->
  shape (length preferences) (length budget) d.
Proof.
  intro H. apply find_decomposition_inv in H.
  destruct H as [Hc [[Hb Hd] | [_ Hg]]].
  - rewrite (basic_path_closed budget preferences Hc Hb Hd). apply basic_shape.
  - apply general_case_inv in Hg. destruct Hg as [Hrun _].
    eapply run_pure_shape; [reflexivity | apply zeros_shape | exact Hrun].
Qed.

(** X6. Every matrix returned by [find_decomposition], on either path,
    has one row per citizen and one column per subject. *)
Theorem find_decomposition_shape (budget : list Q) (preferences : list pyset)
  (d : matrix) :
  find_decomposition budget preferences = Ok (Some d) ->
  length d = length preferences /\
  forall row, In row d -> length row = length budget.
Proof.
  intro H. apply find_decomposition_shape_aux in H. destruct H as [Hn Hs].
  split; [exact Hn|]. rewrite Forall_forall in Hs. exact Hs.
Qed.

Lemma find_decomposition_shape_witness :
  length [[5 # 2]; [5 # 2]] = length [[0%nat]; [0%nat]] /\
  forall row, In row [[5 # 2]; [5 # 2]] -> length row = length [5].
Proof.
  apply (@find_decomposition_shape [5] [[0%nat]; [0%nat]] [[5 # 2]; [5 # 2]]).
  reflexivity.
Defined.

(** ** The basic-case constructor on its own *)

Lemma upd_middle (A : Type) (done : list A) (x y : A) (rest : list A) :
  upd (done ++ x :: rest) (length done) y = (done ++ [y]) ++ rest.
Proof.
  induction done as [|r done IH]; simpl.
  - reflexivity.
  - rewrite IH. reflexivity.
Qed.

Lemma basic_loop_step (budget : list Q) (x : nat) (p : pyset)
  (cs : list (nat * pyset)) (done rest : matrix) :
  (x < length budget)%nat ->
  basic_loop budget ((length done, x :: p) :: cs)
    (done ++ repeat 0 (length budget) :: rest)
  = basic_loop budget cs ((done ++ [basic_row budget (x :: p)]) ++ rest).
Proof.
  intro Hx. simpl.
  rewrite (index_ok budget 0 Hx). simpl.
  unfold index at 1. rewrite nth_error_app2 by lia.
  rewrite Nat.sub_diag. simpl.
  rewrite store_ok by (rewrite repeat_length; exact Hx). simpl.
  rewrite upd_middle. reflexivity.
Qed.

Lemma basic_loop_heads (budget : list Q) (ps : list pyset) :
  Forall (head_ok (length budget)) ps ->
  forall (done : matrix),
    basic_loop budget (combine (seq (length done) (length ps)) ps)
      (done ++ repeat (repeat 0 (length budget)) (length ps))
    = Ok (done ++ map (basic_row budget) ps).
Proof.
  induction 1 as [|p ps [x [r [-> Hx]]] Hps IH]; intro done.
  - reflexivity.
  - cbn [length seq combine repeat map].
    rewrite basic_loop_step by exact Hx.
    replace (S (length done)) with (length (done ++ [basic_row budget (x :: r)]))
      by (rewrite length_app; simpl; lia).
    rewrite IH, <- app_assoc. reflexivity.
Qed.

Lemma basic_loop_inv (budget : list Q) (ps : list pyset) :
  forall (idx : list nat) (d0 d : matrix),
    length idx = length ps ->
    basic_loop budget (combine idx ps) d0 = Ok d ->
    Forall (head_ok (length budget)) ps.
Proof.
  induction ps as [|p ps IH]; intros idx d0 d Hl H.
  - constructor.
  - destruct idx as [|i idx]; [discriminate Hl|]. simpl in H.
    apply bind_Ok_inv in H. destruct H as [x [Hx H]].
    destruct p as [|y r]; [discriminate Hx|]. inversion Hx; subst y.
    apply bind_Ok_inv in H. destruct H as [b [Hb H]].
    apply (index_inv _ _ 0) in Hb. destruct Hb as [Hlt _].
    apply bind_Ok_inv in H. destruct H as [row [_ H]].
    apply bind_Ok_inv in H. destruct H as [row' [_ H]].
    constructor.
    + exists x, r. auto.
    + eapply IH; [|exact H]. simpl in Hl. lia.
Qed.

Lemma calc_decomposition_iff (budget : list Q) (preferences : list pyset)
  (d : matrix) :
  calc_decomposition_for_basic_case budget preferences = Ok d <->
  Forall (head_ok (length budget)) preferences /\
  d = map (basic_row budget) preferences.
Proof.
  unfold calc_decomposition_for_basic_case, enumerate, zeros. split.
  - intro H.
    assert (Hh : Forall (head_ok (length budget)) preferences).
    { eapply basic_loop_inv; [|exact H]. apply length_seq. }
    split; [exact Hh|].
    pose proof (@basic_loop_heads budget preferences Hh []) as Hc.
    simpl in Hc. rewrite Hc in H. inversion H. reflexivity.
  - intros [Hh ->]. apply (@basic_loop_heads budget preferences Hh []).
Qed.

Lemma basic_loop_raises (budget : list Q) (p : pyset) (post : list pyset)
  (e : exn) (pre : list pyset) :
  (p = [] /\ e = StopIteration) \/
  (exists x r, p = x :: r /\ (length budget <= x)%nat /\ e = IndexError) ->
  Forall (head_ok (length budget)) pre ->
  forall (done : matrix),
    basic_loop budget
      (combine (seq (length done) (length (pre ++ p :: post))) (pre ++ p :: post))
      (done ++ repeat (repeat 0 (length budget)) (length (pre ++ p :: post)))
    = Raise e.
Proof.
  intro Hp. induction 1 as [|q pre [x [r [-> Hx]]] Hpre IH]; intro done.
  - cbn [app length seq combine repeat].
    destruct Hp as [[-> ->] | [x [r [-> [Hx ->]]]]].
    + reflexivity.
    + simpl. unfold index at 1.
      rewrite (proj2 (nth_error_None budget x)) by exact Hx. reflexivity.
  - cbn [app length seq combine repeat].
    rewrite basic_loop_step by exact Hx.
    replace (S (length done)) with (length (done ++ [basic_row budget (x :: r)]))
      by (rewrite length_app; simpl; lia).
    apply IH.
Qed.

(** X8. Called on its own, [calc_decomposition_for_basic_case] raises at
    the first citizen whose set is empty or starts with a subject that is
    out of range: [StopIteration] for an empty set, [IndexError] for an
    out-of-range first preference. *)
Theorem calc_decomposition_raises (budget : list Q) (pre : list pyset)
  (p : pyset) (post : list pyset) (e : exn) :
  Forall (head_ok (length budget)) pre ->
  (p = [] /\ e = StopIteration) \/
  (exists x r, p = x :: r /\ (length budget <= x)%nat /\ e = IndexError) ->
  calc_decomposition_for_basic_case budget (pre ++ p :: post) = Raise e.
Proof.
  intros Hpre Hp. unfold calc_decomposition_for_basic_case, enumerate, zeros.
  apply (@basic_loop_raises budget p post e pre Hp Hpre []).
Qed.

Lemma calc_decomposition_raises_witness :
  calc_decomposition_for_basic_case [5; 7] ([[1%nat]] ++ [] :: [[0%nat]])
  = Raise StopIteration /\
  calc_decomposition_for_basic_case [5; 7] ([[1%nat]] ++ [2%nat] :: [[0%nat]])
  = Raise IndexError.
Proof.
  assert (Hpre : Forall (head_ok (length [5; 7])) [[1%nat]]).
  { repeat constructor. exists 1%nat, []. split; [reflexivity | simpl; lia]. }
  split.
  - apply (@calc_decomposition_raises [5; 7] [[1%nat]] [] [[0%nat]]
             StopIteration Hpre).
    left. split; reflexivity.
  - apply (@calc_decomposition_raises [5; 7] [[1%nat]] [2%nat] [[0%nat]]
             IndexError Hpre).
    right. exists 2%nat, []. repeat split. simpl. lia.
Defined.

(** ** Columns on the basic path *)

Lemma column_sum_cons (r : list Q) (d : matrix) (j : nat) :
  column_sum (r :: d) j == nth j r 0 + column_sum d j.
Proof. unfold column_sum. simpl. apply sum_cons. Qed.

Lemma basic_row_cell (budget : list Q) (x : nat) (r : pyset) (j : nat) :
  (x < length budget)%nat ->
  nth j (basic_row budget (x :: r)) 0
  = if Nat.eqb j x then nth x budget 0 else 0.
Proof.
  intro Hx. unfold basic_row. simpl hd.
  rewrite nth_upd by (rewrite repeat_length; exact Hx).
  destruct (Nat.eqb j x); [reflexivity | apply nth_repeat].
Qed.

Lemma basic_column_sum (budget : list Q) (preferences : list pyset) (j : nat) :
  Forall (head_ok (length budget)) preferences ->
  column_sum (map (basic_row budget) preferences) j
  == of_nat (first_choice_count j preferences) * nth j budget 0.
Proof.
  induction 1 as [|p ps [x [r [-> Hx]]] Hps IH].
  - unfold column_sum, first_choice_count. simpl.
    change (of_nat 0) with 0. rewrite sum_nil. lra.
  - cbn [map]. rewrite column_sum_cons, IH, basic_row_cell by exact Hx.
    unfold first_choice_count. cbn [filter].
    rewrite (Nat.eqb_sym x j).
    destruct (Nat.eqb_spec j x) as [->|Hne].
    + cbn [length]. rewrite of_nat_succ. lra.
    + lra.
Qed.

(** X9. On the basic path the sum of column [j] is the budget of subject
    [j] times the number of citizens whose first preference is [j]: a
    subject that is nobody's first preference receives nothing, whatever
    its budget. *)
Theorem basic_columns (budget : list Q) (preferences : list pyset)
  (d : matrix) (j : nat) :
  calc_decomposition_for_basic_case budget preferences = Ok d ->
  column_sum d j == of_nat (first_choice_count j preferences) * nth j budget 0.
Proof.
  intro H. apply calc_decomposition_iff in H. destruct H as [Hh ->].
  apply basic_column_sum, Hh.
Qed.

Lemma basic_columns_witness :
  column_sum [[5; 0]] 1
  == of_nat (first_choice_count 1 [[0; 1]%nat]) * nth 1 [5; 5] 0.
Proof.
  apply (@basic_columns [5; 5] [[0; 1]%nat] [[5; 0]] 1). reflexivity.
Defined.

Lemma singletons_first_choice (preferences : list pyset) (j : nat) :
  Forall (fun p => length p = 1%nat) preferences ->
  first_choice_count j preferences = occurrences j preferences.
Proof.
  unfold first_choice_count, occurrences.
  induction 1 as [|p ps Hp Hps IH]; [reflexivity|].
  destruct p as [|x [|y r]]; try discriminate Hp.
  cbn [filter map list_sum count_occ].
  destruct (Nat.eq_dec x j) as [->|Hne].
  - rewrite Nat.eqb_refl. cbn [length]. rewrite IH. reflexivity.
  - destruct (Nat.eqb_spec x j); [congruence|]. rewrite IH. reflexivity.
Qed.

Lemma singletons_nonempty (preferences : list pyset) :
  Forall (fun p => length p = 1%nat) preferences ->
  check_if_no_pref_then_return_None preferences = false.
Proof.
  intro H. destruct (check_if_no_pref_then_return_None preferences) eqn:E;
    [|reflexivity].
  apply check_no_pref_true in E. rewrite Forall_forall in H.
  apply H in E. discriminate E.
Qed.

(** X10. When every citizen prefers exactly one subject and the detector
    accepts the input, [find_decomposition] returns a matrix in which
    entry [i][j] is the budget of subject [j] if citizen [i] prefers [j]
    and zero otherwise, and every column sums to the budget of its
    subject. *)
Theorem basic_singletons_conserve (budget : list Q) (preferences : list pyset) :
  Forall (fun p => length p = 1%nat) preferences ->
  is_basic_case_func budget preferences = Ok true ->
  exists d,
    find_decomposition budget preferences = Ok (Some d) /\
    (forall j, (j < length budget)%nat -> column_sum d j == nth j budget 0) /\
    (forall i j, (i < length preferences)%nat ->
       nth j (nth i d []) 0
       = if mem j (nth i preferences []) then nth j budget 0 else 0).
Proof.
  intros Hs Hb.
  pose proof (singletons_nonempty Hs) as Hc.
  pose proof (@is_basic_case_func_valid budget preferences true Hb) as Hv.
  exists (map (basic_row budget) preferences). split; [|split].
  - unfold find_decomposition. rewrite Hc, Hb. simpl.
    rewrite (calc_decomposition_closed budget Hc Hv). reflexivity.
  - intros j Hj.
    assert (Hh : Forall (head_ok (length budget)) preferences).
    { apply (@calc_decomposition_iff budget preferences
               (map (basic_row budget) preferences)).
      apply calc_decomposition_closed; assumption. }
    rewrite (@basic_column_sum budget preferences j Hh),
      (@singletons_first_choice preferences j Hs).
    apply (proj1 (proj1 (@is_basic_case_func_iff budget preferences true Hb)
                    eq_refl)) in Hj.
    rewrite Hj. change (of_nat 1) with 1. lra.
  - intros i j Hi.
    rewrite (nth_indep _ [] (basic_row budget [])) by (rewrite length_map; exact Hi).
    rewrite map_nth.
    assert (Hin : In (nth i preferences []) preferences) by (apply nth_In, Hi).
    pose proof Hin as Hlen. rewrite Forall_forall in Hs. apply Hs in Hlen.
    unfold valid_preferences in Hv. rewrite Forall_forall in Hv. apply Hv in Hin.
    destruct (nth i preferences []) as [|x [|y r]]; try discriminate Hlen.
    inversion Hin as [|? ? Hx _]; subst.
    rewrite basic_row_cell by exact Hx. simpl.
    destruct (Nat.eqb_spec j x) as [->|Hne]; reflexivity.
Qed.

Lemma basic_singletons_conserve_witness :
  exists d,
    find_decomposition [0; 100] [[0%nat]; [1%nat]] = Ok (Some d) /\
    (forall j, (j < 2)%nat -> column_sum d j == nth j [0; 100] 0) /\
    (forall i j, (i < 2)%nat ->
       nth j (nth i d []) 0
       = if mem j (nth i [[0%nat]; [1%nat]] []) then nth j [0; 100] 0 else 0).
Proof.
  apply (@basic_singletons_conserve [0; 100] [[0%nat]; [1%nat]]).
  - repeat constructor.
  - reflexivity.
Defined.

Lemma general_path_column_conservation_witness :
  column_sum [[5 # 2]; [5 # 2]] 0 == nth 0 [5] 0.
Proof.
  apply (@general_path_column_conservation [5] [[0%nat]; [0%nat]]
           [[5 # 2]; [5 # 2]] 0).
  - repeat constructor. discriminate.
  - reflexivity.
  - reflexivity.
  - simpl. lia.
Defined.

(** ** One call of [allocate_budget_for_subject] *)

Lemma fill_done (j : nat) (share : Q) (citizens : list nat) (rem : Q) (d : matrix) :
  Qle_bool rem 0 = true -> fill j share citizens rem d = d.
Proof.
  intro H. destruct citizens; simpl; [reflexivity|]. rewrite H. reflexivity.
Qed.

Lemma fill_row_other (j : nat) (share : Q) (i : nat) (citizens : list nat) :
  ~ In i citizens ->
  forall rem d, nth i (fill j share citizens rem d) [] = nth i d [].
Proof.
  induction citizens as [|x rest IH]; intros Hn rem d; simpl.
  - reflexivity.
  - destruct (Qle_bool rem 0); [reflexivity|].
    rewrite IH by (intro H; apply Hn; right; exact H).
    apply add_to_row_other. intros ->. apply Hn. left. reflexivity.
Qed.

Lemma fill_cell_other (j : nat) (share : Q) (i k : nat) (citizens : list nat) :
  k <> j ->
  forall rem d,
    nth k (nth i (fill j share citizens rem d) []) 0 = nth k (nth i d []) 0.
Proof.
  intro Hk. induction citizens as [|x rest IH]; intros rem d; simpl.
  - reflexivity.
  - destruct (Qle_bool rem 0); [reflexivity|].
    rewrite IH. apply add_to_cell_other. right. exact Hk.
Qed.

Lemma allocate_pure_outcome (budget : list Q) (preferences : list pyset)
  (j : nat) (share : Q) (d : matrix) :
  0 <= nth j budget 0 ->
  (fst (allocate_pure budget preferences j share d) = true <->
   nth j budget 0
   <= sum (map (Spec.remaining_capacity share d) (Spec.interested preferences j)))
  /\
  (fst (allocate_pure budget preferences j share d) = false ->
   snd (allocate_pure budget preferences j share d) = d).
Proof.
  intro Hb. unfold allocate_pure.
  destruct (Spec.interested preferences j) as [|i rest] eqn:E.
  - simpl. change (sum []) with 0.
    destruct (Qlt_bool 0 (nth j budget 0)) eqn:E1; simpl.
    + apply Qlt_bool_iff in E1. split; [|reflexivity].
      split; [discriminate | intro H; lra].
    + apply Qlt_bool_false in E1. split; [|discriminate].
      split; [intros _; exact E1 | reflexivity].
  - cbn [length Nat.eqb andb].
    destruct (Qlt_bool _ _) eqn:E1; cbn [fst snd].
    + apply Qlt_bool_iff in E1. split; [|reflexivity].
      split; [discriminate | intro H; lra].
    + apply Qlt_bool_false in E1. split; [|discriminate].
      split; [intros _; exact E1 | reflexivity].
Qed.

(** X12. On a matrix with one row per citizen and one column per subject,
    for a subject [j] with a non-negative budget,
    [allocate_budget_for_subject] raises nothing; it reports success
    exactly when the subject's budget is at most the total remaining
    capacity (share minus row sum) of the citizens interested in [j], and
    on failure the matrix is left as it was. *)
Theorem allocate_budget_for_subject_outcome (budget : list Q)
  (preferences : list pyset) (j : nat) (share : Q) (d : matrix) :
  (j < length budget)%nat ->
  shape (length preferences) (length budget) d ->
  0 <= nth j budget 0 ->
  exists ok d',
    allocate_budget_for_subject budget preferences j share d = Ok (ok, d') /\
    (ok = true <->
     nth j budget 0
     <= sum (map (Spec.remaining_capacity share d)
               (Spec.interested preferences j))) /\
    (ok = false -> d' = d).
Proof.
  intros Hj Hd Hb.
  exists (fst (allocate_pure budget preferences j share d)),
         (snd (allocate_pure budget preferences j share d)).
  split.
  - rewrite allocate_budget_for_subject_ok by assumption.
    rewrite <- surjective_pairing. reflexivity.
  - apply allocate_pure_outcome, Hb.
Qed.

Lemma allocate_budget_for_subject_outcome_witness :
  exists ok d',
    allocate_budget_for_subject [5; 3] [[0; 1]; [0]]%nat 0 4 [[0; 0]; [0; 0]]
    = Ok (ok, d') /\
    (ok = true <->
     nth 0 [5; 3] 0
     <= sum (map (Spec.remaining_capacity 4 [[0; 0]; [0; 0]])
               (Spec.interested [[0; 1]; [0]]%nat 0))) /\
    (ok = false -> d' = [[0; 0]; [0; 0]]).
Proof.
  apply (@allocate_budget_for_subject_outcome [5; 3] [[0; 1]; [0]]%nat 0 4
           [[0; 0]; [0; 0]]).
  - simpl. lia.
  - split; [reflexivity | repeat constructor].
  - simpl. lra.
Defined.

(** X13. In exact arithmetic, a successful call of
    [allocate_budget_for_subject] for subject [j] (non-negative budget,
    no row above the share before the call) keeps the shape of the matrix
    and keeps every row at or below the share; column [j] grows by
    exactly the subject's budget; entries of the other columns and rows
    of citizens not interested in [j] are unchanged.  (In binary64 a row
    sum can be rounded above the share; see
    [row_exceeds_share_in_binary64].) *)
Theorem allocate_budget_for_subject_effect (budget : list Q)
  (preferences : list pyset) (j : nat) (share : Q) (d d' : matrix) :
  (j < length budget)%nat ->
  shape (length preferences) (length budget) d ->
  rows_le share d ->
  0 <= nth j budget 0 ->
  allocate_budget_for_subject budget preferences j share d = Ok (true, d') ->
  shape (length preferences) (length budget) d' /\
  rows_le share d' /\
  column_sum d' j == column_sum d j + nth j budget 0 /\
  (forall i k, k <> j -> nth k (nth i d' []) 0 = nth k (nth i d []) 0) /\
  (forall i, ~ In j (nth i preferences []) -> nth i d' [] = nth i d []).
Proof.
  intros Hj Hd Hle Hb H.
  rewrite allocate_budget_for_subject_ok in H by assumption.
  inversion H as [Hp]. clear H.
  assert (Hfst : fst (allocate_pure budget preferences j share d) = true)
    by (rewrite Hp; reflexivity).
  assert (Hsnd : snd (allocate_pure budget preferences j share d) = d')
    by (rewrite Hp; reflexivity).
  rewrite <- Hsnd. split; [|split; [|split; [|split]]].
  - apply allocate_pure_shape; [reflexivity | exact Hd].
  - apply allocate_pure_rows_le; assumption.
  - apply allocate_pure_column; assumption.
  - intros i k Hk. unfold allocate_pure.
    destruct (_ && _)%bool; [reflexivity|].
    destruct (Qlt_bool _ _); [reflexivity|]. simpl.
    apply fill_cell_other, Hk.
  - intros i Hni. unfold allocate_pure.
    destruct (_ && _)%bool; [reflexivity|].
    destruct (Qlt_bool _ _); [reflexivity|]. simpl.
    apply fill_row_other. intro Hin. apply interested_spec in Hin.
    apply Hni, mem_true. tauto.
Qed.

Lemma allocate_budget_for_subject_effect_witness :
  column_sum [[4; 0]; [1; 0]] 0 == column_sum [[0; 0]; [0; 0]] 0 + nth 0 [5; 3] 0.
Proof.
  apply (@allocate_budget_for_subject_effect [5; 3] [[0; 1]; [0]]%nat 0 4
           [[0; 0]; [0; 0]] [[4; 0]; [1; 0]]).
  - simpl. lia.
  - split; [reflexivity | repeat constructor].
  - repeat constructor; vm_compute; discriminate.
  - simpl. lra.
  - reflexivity.
Defined.

(** ** Greedy order within one subject *)

Lemma fill_order (n s j : nat) (share : Q) (i i' : nat) (l2 : list nat) :
  (j < s)%nat ->
  In i' l2 ->
  forall l1 rem d,
    Forall (fun k => (k < n)%nat) (l1 ++ i :: l2) ->
    NoDup (l1 ++ i :: l2) ->
    shape n s d ->
    nth j (nth i' (fill j share (l1 ++ i :: l2) rem d) []) 0
    <> nth j (nth i' d []) 0 ->
    sum (nth i (fill j share (l1 ++ i :: l2) rem d) []) == share.
Proof.
  intros Hj Hin. induction l1 as [|x l1 IH]; intros rem d Hlt Hnd Hd Hch.
  - cbn [app] in *. inversion Hnd as [|? ? Hni Hnd2]; subst.
    inversion Hlt as [|? ? Hi Hlt2]; subst.
    cbn [fill] in *. destruct (Qle_bool rem 0) eqn:E; [congruence|].
    set (a := fill_step j share i rem d) in *.
    assert (Hne : i' <> i) by (intros ->; contradiction).
    rewrite fill_row_other by exact Hni.
    destruct (Qle_bool (rem - a) 0) eqn:E2.
    + rewrite fill_done in Hch by exact E2.
      rewrite add_to_row_other in Hch by exact Hne. congruence.
    + apply Qle_bool_false in E2.
      rewrite (add_to_row_sum a Hd Hi Hj).
      subst a. unfold fill_step in *.
      destruct (py_min_cases (Spec.remaining_capacity share d i) rem)
        as [[Hm _]|[Hm _]]; rewrite Hm in *.
      * unfold Spec.remaining_capacity. lra.
      * lra.
  - cbn [app] in *. inversion Hnd as [|? ? Hnx Hnd2]; subst.
    inversion Hlt as [|? ? Hx Hlt2]; subst.
    cbn [fill] in *. destruct (Qle_bool rem 0) eqn:E; [congruence|].
    apply IH; try assumption.
    + apply add_to_shape; assumption.
    + rewrite add_to_row_other; [exact Hch|].
      intros ->. apply Hnx. apply in_or_app. right. right. exact Hin.
Qed.

Lemma sorted_before (i : nat) (l1 l2 : list nat) :
  StronglySorted lt (l1 ++ i :: l2) -> forall y, In y l1 -> (y < i)%nat.
Proof.
  induction l1 as [|x l1 IH]; intros Hs y Hy.
  - destruct Hy.
  - cbn [app] in Hs. inversion Hs as [|? ? Hs' Hx]; subst.
    destruct Hy as [<-|Hy].
    + rewrite Forall_forall in Hx. apply Hx.
      apply in_or_app. right. left. reflexivity.
    + apply IH; assumption.
Qed.

Lemma sorted_split (l : list nat) (i i' : nat) :
  StronglySorted lt l -> In i l -> In i' l -> (i < i')%nat ->
  exists l1 l2, l = l1 ++ i :: l2 /\ In i' l2.
Proof.
  intros Hs Hi Hi' Hlt.
  destruct (in_split _ _ Hi) as [l1 [l2 ->]].
  exists l1, l2. split; [reflexivity|].
  apply in_app_or in Hi'. destruct Hi' as [H|[H|H]].
  - pose proof (sorted_before _ _ _ Hs _ H). lia.
  - lia.
  - exact H.
Qed.

Lemma interested_sorted (preferences : list pyset) (j : nat) :
  StronglySorted lt (Spec.interested preferences j).
Proof. unfold Spec.interested. apply filter_sorted, seq_sorted. Qed.

(** X14. In exact arithmetic, within one call of
    [allocate_budget_for_subject] the citizens interested in the subject
    are filled in ascending index order: if the entry of a citizen [i']
    in column [j] was changed by the call, then every interested citizen
    [i] with a smaller index has been filled up to exactly the share. *)
Theorem allocate_budget_for_subject_order (budget : list Q)
  (preferences : list pyset) (j : nat) (share : Q) (d d' : matrix) (ok : bool)
  (i i' : nat) :
  (j < length budget)%nat ->
  shape (length preferences) (length budget) d ->
  allocate_budget_for_subject budget preferences j share d = Ok (ok, d') ->
  (i < i')%nat ->
  In j (nth i preferences []) ->
  nth j (nth i' d' []) 0 <> nth j (nth i' d []) 0 ->
  sum (nth i d' []) == share.
Proof.
  intros Hj Hd H Hlt Hpref Hch.
  rewrite allocate_budget_for_subject_ok in H by assumption.
  inversion H as [Hp]. clear H.
  assert (Hsnd : d' = snd (allocate_pure budget preferences j share d))
    by (rewrite Hp; reflexivity).
  clear Hp. subst d'. revert Hch.
  unfold allocate_pure.
  destruct (_ && _)%bool;
    [cbn [snd]; intro Hch; exfalso; apply Hch; reflexivity|].
  destruct (Qlt_bool _ _);
    [cbn [snd]; intro Hch; exfalso; apply Hch; reflexivity|].
  cbn [snd]. intro Hch.
  assert (Hi' : In i' (Spec.interested preferences j)).
  { destruct (in_dec Nat.eq_dec i' (Spec.interested preferences j)) as [Hin|Hn];
      [exact Hin|].
    exfalso. apply Hch. rewrite fill_row_other by exact Hn. reflexivity. }
  assert (Hi : In i (Spec.interested preferences j)).
  { apply interested_spec. apply interested_spec in Hi'.
    split; [lia | apply mem_true, Hpref]. }
  destruct (sorted_split (interested_sorted preferences j) Hi Hi' Hlt)
    as [l1 [l2 [E Hin2]]].
  pose proof (interested_below preferences j) as Hbelow.
  pose proof (interested_NoDup preferences j) as Hnd.
  rewrite E in *.
  eapply fill_order; eassumption.
Qed.

Lemma allocate_budget_for_subject_order_witness :
  sum (nth 0 [[4; 0]; [1; 0]] []) == 4.
Proof.
  apply (@allocate_budget_for_subject_order [5; 3] [[0; 1]; [0]]%nat 0 4
           [[0; 0]; [0; 0]] [[4; 0]; [1; 0]] true 0 1).
  - simpl. lia.
  - split; [reflexivity | repeat constructor].
  - reflexivity.
  - lia.
  - simpl. auto.
  - simpl. intro H. discriminate H.
Defined.

(** ** Soundness and incompleteness of the general path *)

Lemma general_run_rows_exact (budget : list Q) (preferences : list pyset)
  (d : matrix) :
  nonneg budget ->
  run_pure budget preferences (share_of budget preferences)
    (seq 0 (length budget)) (zeros (length preferences) (length budget)) = Some d ->
  forall row, In row d -> sum row == share_of budget preferences.
Proof.
  intros Hb Hrun.
  destruct (@general_run_invariants budget preferences d Hb Hrun)
    as [[Hlen _] [Hle [_ Ht]]].
  destruct (length preferences) as [|n] eqn:En.
  - destruct d; [|discriminate Hlen]. intros row [].
  - assert (Hn : (0 < length preferences)%nat) by lia.
    pose proof (share_of_total budget preferences Hn) as Hshare.
    assert (Hfull : Forall (fun x => x == share_of budget preferences) (map sum d)).
    { apply rows_full.
      - apply Forall_map. exact Hle.
      - rewrite length_map, Hlen, <- En. fold (mtotal d). lra. }
    rewrite Forall_map, Forall_forall in Hfull. exact Hfull.
Qed.

(** X15. Soundness of the general path: for non-negative budgets, a
    matrix returned on an input that is not a basic case is a
    decomposition in exact arithmetic: one row per citizen and one column
    per subject, non-negative entries, every row summing exactly to the
    share, every column summing exactly to its subject's budget, and
    money only on subjects the citizen prefers. *)
Theorem general_path_sound (budget : list Q) (preferences : list pyset)
  (d : matrix) :
  nonneg budget ->
  is_basic_case_func budget preferences = Ok false ->
  find_decomposition budget preferences = Ok (Some d) ->
  is_decomposition budget preferences d.
Proof.
  intros Hb Hbasic H.
  pose proof (find_decomposition_respects _ _ H) as Hresp.
  apply find_decomposition_inv in H.
  destruct H as [_ [[Hb' _] | [_ H]]]; [congruence|].
  apply general_case_inv in H. destruct H as [Hrun _].
  destruct (@general_run_invariants budget preferences d Hb Hrun)
    as [Hshape [Hle [Hnn _]]].
  split; [exact Hshape|]. split; [exact Hnn|]. split; [|split].
  - apply general_run_rows_exact; assumption.
  - intros j Hj.
    rewrite (@run_pure_column budget preferences (share_of budget preferences) j
               (seq 0 (length budget)) Hb (seq_below (length budget))
               (seq_NoDup (length budget) 0) ltac:(apply in_seq; lia)
               _ _ (zeros_shape (length preferences) (length budget))
               (@zeros_rows_le _ _ _ (@share_of_nonneg budget preferences Hb))
               Hrun).
    rewrite zeros_column. lra.
  - intros i j Hpos. apply mem_true.
    destruct (mem j (nth i preferences [])) eqn:Hm; [reflexivity|].
    apply Hresp in Hm. rewrite Hm in Hpos. exfalso. lra.
Qed.

Lemma general_path_sound_witness :
  is_decomposition [5] [[0%nat]; [0%nat]] [[5 # 2]; [5 # 2]].
Proof.
  apply (@general_path_sound [5] [[0%nat]; [0%nat]] [[5 # 2]; [5 # 2]]).
  - repeat constructor. discriminate.
  - reflexivity.
  - reflexivity.
Defined.

(** X16. The greedy allocation is incomplete: there is an input with
    non-negative budgets and valid preferences on which
    [find_decomposition] returns the sentinel although a decomposition
    exists.  With budget [1, 1] and preferences [{0, 1}, {0}] citizen 0 is
    filled by subject 0 first, and subject 1, which only citizen 0
    prefers, can no longer be placed. *)
Theorem greedy_is_incomplete :
  exists budget preferences d,
    nonneg budget /\
    valid_preferences (length budget) preferences /\
    find_decomposition budget preferences = Ok None /\
    is_decomposition budget preferences d.
Proof.
  exists [1; 1], [[0; 1]; [0]]%nat, [[0; 1]; [1; 0]].
  split; [repeat constructor; discriminate|].
  split; [repeat constructor|].
  split; [reflexivity|].
  split; [split; [reflexivity | repeat constructor]|].
  split; [repeat constructor; discriminate|].
  split; [|split].
  - intros row [<-|[<-|[]]]; reflexivity.
  - intros [|[|j]] Hj; try reflexivity. simpl in Hj. lia.
  - intros [|[|i]] [|[|j]]; simpl; intro H; auto;
      try (exfalso; apply (Qlt_irrefl 0); exact H).
    + destruct j; exfalso; apply (Qlt_irrefl 0); exact H.
    + destruct j; exfalso; apply (Qlt_irrefl 0); exact H.
    + destruct i; exfalso; apply (Qlt_irrefl 0); exact H.
    + destruct i; exfalso; apply (Qlt_irrefl 0); exact H.
    + destruct i, j; exfalso; apply (Qlt_irrefl 0); exact H.
Qed.

(** * Subjects that are arbitrary Python ints *)

(** ** Python indexing *)

Lemma position_spec (len : nat) (k : Z) :
  (IntSubjects.in_range len k /\
   exists i, position len k = Some i /\ (i < len)%nat) \/
  (~ IntSubjects.in_range len k /\ position len k = None).
Proof.
  unfold position, IntSubjects.in_range.
  destruct (Z.leb_spec 0 k) as [H0|H0].
  - destruct (Z.ltb_spec k (Z.of_nat len)) as [H1|H1].
    + left. split; [lia|]. exists (Z.to_nat k). split; [reflexivity | lia].
    + right. split; [lia | reflexivity].
  - destruct (Z.leb_spec (- Z.of_nat len) k) as [H1|H1].
    + left. split; [lia|]. exists (Z.to_nat (Z.of_nat len + k)).
      split; [reflexivity | lia].
    + right. split; [lia | reflexivity].
Qed.

Lemma py_index_spec (A : Type) (l : list A) (k : Z) (d : A) :
  (IntSubjects.in_range (length l) k /\
   exists i, position (length l) k = Some i /\ (i < length l)%nat /\
             py_index l k = Ok (nth i l d)) \/
  (~ IntSubjects.in_range (length l) k /\ py_index l k = Raise IndexError).
Proof.
  unfold py_index.
  destruct (position_spec (length l) k) as [[Hr [i [Hp Hi]]] | [Hr Hp]];
    rewrite Hp.
  - left. split; [exact Hr|]. exists i. repeat split; try assumption.
    apply index_ok. exact Hi.
  - right. split; [exact Hr | reflexivity].
Qed.

Lemma py_store_spec (A : Type) (l : list A) (k : Z) (a : A) :
  (IntSubjects.in_range (length l) k /\
   exists i, position (length l) k = Some i /\ (i < length l)%nat /\
             py_store l k a = Ok (upd l i a)) \/
  (~ IntSubjects.in_range (length l) k /\ py_store l k a = Raise IndexError).
Proof.
  unfold py_store.
  destruct (position_spec (length l) k) as [[Hr [i [Hp Hi]]] | [Hr Hp]];
    rewrite Hp.
  - left. split; [exact Hr|]. exists i. repeat split; try assumption.
    apply store_ok. exact Hi.
  - right. split; [exact Hr | reflexivity].
Qed.

(** ** The detector *)

Lemma count_citizen_int (ps : IntSubjects.pyset) :
  forall c,
    (Forall (IntSubjects.in_range (length c)) ps /\
     exists c', IntSubjects.count_citizen ps c = Ok c' /\ length c' = length c) \/
    (~ Forall (IntSubjects.in_range (length c)) ps /\
     IntSubjects.count_citizen ps c = Raise IndexError).
Proof.
  induction ps as [|p ps IH]; intro c; simpl.
  - left. split; [constructor|]. exists c. auto.
  - destruct (py_index_spec c p 0%nat) as [[Hr [i [Hp [Hi Hx]]]] | [Hr Hx]];
      rewrite Hx; simpl.
    + destruct (py_store_spec c p (nth i c 0 + 1)%nat)
        as [[_ [i' [Hp' [_ Hs]]]] | [Hr' _]]; [|contradiction].
      rewrite Hs. simpl.
      destruct (IH (upd c i' (nth i c 0 + 1)%nat)) as [[Hf [c' [Hc Hl]]] | [Hf Hc]];
        rewrite length_upd in *.
      * left. split; [constructor; assumption|].
        exists c'. split; [exact Hc | exact Hl].
      * right. split; [|exact Hc].
        intro H. inversion H; subst. contradiction.
    + right. split; [|reflexivity].
      intro H. inversion H; subst. contradiction.
Qed.

Lemma count_all_int (preferences : list IntSubjects.pyset) :
  forall c,
    (IntSubjects.legal_preferences (length c) preferences /\
     exists c', IntSubjects.count_all preferences c = Ok c') \/
    (~ IntSubjects.legal_preferences (length c) preferences /\
     IntSubjects.count_all preferences c = Raise IndexError).
Proof.
  unfold IntSubjects.legal_preferences.
  induction preferences as [|p ps IH]; intro c; simpl.
  - left. split; [constructor|]. exists c. reflexivity.
  - destruct (count_citizen_int p c) as [[Hp [c1 [Hc1 Hl1]]] | [Hp Hc1]];
      rewrite Hc1; simpl.
    + destruct (IH c1) as [[Hf [c' Hc]] | [Hf Hc]]; rewrite Hl1 in *.
      * left. split; [constructor; assumption|]. exists c'. exact Hc.
      * right. split; [|exact Hc].
        intro H. inversion H; subst. contradiction.
    + right. split; [|reflexivity].
      intro H. inversion H; subst. contradiction.
Qed.

Lemma is_basic_case_func_int (budget : list Q)
  (preferences : list IntSubjects.pyset) :
  (IntSubjects.legal_preferences (length budget) preferences /\
   exists b, IntSubjects.is_basic_case_func budget preferences = Ok b) \/
  (~ IntSubjects.legal_preferences (length budget) preferences /\
   IntSubjects.is_basic_case_func budget preferences = Raise IndexError).
Proof.
  unfold IntSubjects.is_basic_case_func.
  destruct (count_all_int preferences (repeat 0%nat (length budget)))
    as [[Hf [c Hc]] | [Hf Hc]]; rewrite repeat_length in Hf; rewrite Hc; simpl.
  - left. split; [exact Hf|]. eexists. reflexivity.
  - right. split; [exact Hf | reflexivity].
Qed.

(** X4. With subjects that are arbitrary Python ints,
    [is_basic_case_func] raises exactly when some preferred subject [k]
    is not a legal index into the counts, that is, not in
    [-len(budget) <= k < len(budget)]; the exception is [IndexError].  A
    negative subject within that range is counted for the subject
    [len(budget) + k]. *)
Theorem is_basic_case_func_raises (budget : list Q)
  (preferences : list IntSubjects.pyset) (e : exn) :
  IntSubjects.is_basic_case_func budget preferences = Raise e <->
  e = IndexError /\ ~ IntSubjects.legal_preferences (length budget) preferences.
Proof.
  destruct (is_basic_case_func_int budget preferences)
    as [[Hf [b Hb]] | [Hf Hb]]; rewrite Hb.
  - split; [discriminate | tauto].
  - split.
    + intro H. inversion H. auto.
    + intros [-> _]. reflexivity.
Qed.

Lemma is_basic_case_func_raises_witness :
  IntSubjects.is_basic_case_func [5; 5] [[-3]; [0]]%Z = Raise IndexError.
Proof.
  apply (proj2 (@is_basic_case_func_raises [5; 5] [[-3]; [0]]%Z IndexError)).
  split; [reflexivity|].
  intro H. inversion H as [|? ? Hp _]; subst.
  inversion Hp as [|? ? Hr _]; subst.
  unfold IntSubjects.in_range in Hr. simpl in Hr. lia.
Defined.

(** ** The basic-case constructor *)

Lemma basic_loop_step_int (budget : list Q) (x : Z) (p : IntSubjects.pyset)
  (cs : list (nat * IntSubjects.pyset)) (done rest : matrix) :
  IntSubjects.in_range (length budget) x ->
  IntSubjects.basic_loop budget ((length done, x :: p) :: cs)
    (done ++ repeat 0 (length budget) :: rest)
  = IntSubjects.basic_loop budget cs
      ((done ++ [IntSubjects.basic_row budget (x :: p)]) ++ rest).
Proof.
  intro Hx. cbn [IntSubjects.basic_loop IntSubjects.next_iter bind].
  destruct (py_index_spec budget x 0) as [[_ [i [Hp [Hi Hb]]]] | [Hn _]];
    [|contradiction].
  rewrite Hb. cbn [bind].
  unfold index at 1. rewrite nth_error_app2 by lia.
  rewrite Nat.sub_diag. cbn [nth_error bind].
  unfold py_store. rewrite repeat_length, Hp.
  rewrite store_ok by (rewrite repeat_length; exact Hi). cbn [bind].
  rewrite upd_middle. unfold IntSubjects.basic_row. rewrite Hp. reflexivity.
Qed.

Lemma basic_loop_heads_int (budget : list Q) (ps : list IntSubjects.pyset) :
  Forall (IntSubjects.legal_head (length budget)) ps ->
  forall (done : matrix),
    IntSubjects.basic_loop budget (combine (seq (length done) (length ps)) ps)
      (done ++ repeat (repeat 0 (length budget)) (length ps))
    = Ok (done ++ map (IntSubjects.basic_row budget) ps).
Proof.
  induction 1 as [|p ps [x [r [-> Hx]]] Hps IH]; intro done.
  - reflexivity.
  - cbn [length seq combine repeat map].
    rewrite basic_loop_step_int by exact Hx.
    replace (S (length done))
      with (length (done ++ [IntSubjects.basic_row budget (x :: r)]))
      by (rewrite length_app; simpl; lia).
    rewrite IH, <- app_assoc. reflexivity.
Qed.

Lemma basic_loop_inv_int (budget : list Q) (ps : list IntSubjects.pyset) :
  forall (idx : list nat) (d0 d : matrix),
    length idx = length ps ->
    IntSubjects.basic_loop budget (combine idx ps) d0 = Ok d ->
    Forall (IntSubjects.legal_head (length budget)) ps.
Proof.
  induction ps as [|p ps IH]; intros idx d0 d Hl H.
  - constructor.
  - destruct idx as [|i idx]; [discriminate Hl|]. simpl in H.
    apply bind_Ok_inv in H. destruct H as [x [Hx H]].
    destruct p as [|y r]; [discriminate Hx|]. inversion Hx; subst y.
    apply bind_Ok_inv in H. destruct H as [b [Hb H]].
    assert (Hr : IntSubjects.in_range (length budget) x).
    { destruct (py_index_spec budget x 0) as [[Hr _] | [_ He]]; [exact Hr|].
      rewrite He in Hb. discriminate Hb. }
    apply bind_Ok_inv in H. destruct H as [row [_ H]].
    apply bind_Ok_inv in H. destruct H as [row' [_ H]].
    constructor.
    + exists x, r. auto.
    + eapply IH; [|exact H]. simpl in Hl. lia.
Qed.

Lemma calc_decomposition_int (budget : list Q)
  (preferences : list IntSubjects.pyset) (d : matrix) :
  IntSubjects.calc_decomposition_for_basic_case budget preferences = Ok d <->
  Forall (IntSubjects.legal_head (length budget)) preferences /\
  d = map (IntSubjects.basic_row budget) preferences.
Proof.
  unfold IntSubjects.calc_decomposition_for_basic_case, enumerate, zeros. split.
  - intro H.
    assert (Hh : Forall (IntSubjects.legal_head (length budget)) preferences).
    { eapply basic_loop_inv_int; [|exact H]. apply length_seq. }
    split; [exact Hh|].
    pose proof (@basic_loop_heads_int budget preferences Hh []) as Hc.
    simpl in Hc. rewrite Hc in H. inversion H. reflexivity.
  - intros [Hh ->]. apply (@basic_loop_heads_int budget preferences Hh []).
Qed.

(** X7. Called on its own, with subjects that are arbitrary Python ints,
    [calc_decomposition_for_basic_case] returns exactly when every
    preference set is non-empty and its first element [k] (in iteration
    order) is a legal index, [-len(budget) <= k < len(budget)]; row [i]
    of the result then holds the budget of citizen [i]'s first preference
    at the position that index denotes (counted from the end when
    negative) and zero elsewhere.  Later elements of a set are never
    read. *)
Theorem calc_decomposition_exact (budget : list Q)
  (preferences : list IntSubjects.pyset) (d : matrix) :
  IntSubjects.calc_decomposition_for_basic_case budget preferences = Ok d <->
  Forall (IntSubjects.legal_head (length budget)) preferences /\
  d = map (IntSubjects.basic_row budget) preferences.
Proof. apply calc_decomposition_int. Qed.

Lemma calc_decomposition_exact_witness :
  IntSubjects.calc_decomposition_for_basic_case [5; 7] [[-1; 9]; [0]]%Z
  = Ok [[0; 7]; [5; 0]].
Proof.
  apply (proj2 (@calc_decomposition_exact [5; 7] [[-1; 9]; [0]]%Z
                  [[0; 7]; [5; 0]])).
  split; [|reflexivity].
  repeat constructor.
  - exists (-1)%Z, [9%Z]. split; [reflexivity|].
    unfold IntSubjects.in_range. simpl. lia.
  - exists 0%Z, []. split; [reflexivity|].
    unfold IntSubjects.in_range. simpl. lia.
Defined.

(** ** The general path sees only the non-negative subjects *)

Lemma mem_visible (j : nat) (p : IntSubjects.pyset) :
  IntSubjects.mem j p = mem j (IntSubjects.visible p).
Proof.
  unfold IntSubjects.mem, mem, IntSubjects.visible.
  induction p as [|x p IH]; simpl.
  - reflexivity.
  - rewrite IH. destruct (Z.leb_spec 0 x) as [H0|H0]; simpl.
    + f_equal. destruct (Z.eqb_spec (Z.of_nat j) x) as [<-|Hne].
      * rewrite Nat2Z.id. symmetry. apply Nat.eqb_refl.
      * symmetry. apply Nat.eqb_neq. intros ->. apply Hne.
        apply Z2Nat.id. exact H0.
    + destruct (Z.eqb_spec (Z.of_nat j) x) as [<-|Hne]; [lia | reflexivity].
Qed.

Lemma index_map (A B : Type) (f : A -> B) (l : list A) (i : nat) :
  index (map f l) i
  = match index l i with
    | Ok a => Ok (f a)
    | Raise e => Raise e
    end.
Proof.
  unfold index. rewrite nth_error_map.
  destruct (nth_error l i); reflexivity.
Qed.

Lemma interested_in_visible (preferences : list IntSubjects.pyset) (j : nat)
  (range : list nat) :
  IntSubjects.interested_in preferences j range
  = interested_in (map IntSubjects.visible preferences) j range.
Proof.
  induction range as [|i range IH]; simpl.
  - reflexivity.
  - rewrite index_map, IH.
    destruct (index preferences i) as [p|e]; simpl; [|reflexivity].
    rewrite mem_visible. reflexivity.
Qed.

Lemma allocate_visible (budget : list Q) (preferences : list IntSubjects.pyset)
  (j : nat) (share : Q) (d : matrix) :
  IntSubjects.allocate_budget_for_subject budget preferences j share d
  = allocate_budget_for_subject budget (map IntSubjects.visible preferences)
      j share d.
Proof.
  unfold IntSubjects.allocate_budget_for_subject, allocate_budget_for_subject,
    IntSubjects.find_interested_citizens, find_interested_citizens.
  rewrite interested_in_visible, length_map. reflexivity.
Qed.

Lemma allocate_all_visible (budget : list Q)
  (preferences : list IntSubjects.pyset) (share : Q) (subjects : list nat) :
  forall d,
    IntSubjects.allocate_all budget preferences share subjects d
    = allocate_all budget (map IntSubjects.visible preferences) share subjects d.
Proof.
  induction subjects as [|j rest IH]; intro d; simpl.
  - reflexivity.
  - rewrite allocate_visible.
    destruct (allocate_budget_for_subject _ _ _ _ _) as [[ok d']|e]; simpl;
      [|reflexivity].
    destruct ok; [apply IH | reflexivity].
Qed.

Lemma general_case_visible (budget : list Q)
  (preferences : list IntSubjects.pyset) :
  IntSubjects.general_case budget preferences
  = general_case budget (map IntSubjects.visible preferences).
Proof.
  unfold IntSubjects.general_case, general_case.
  rewrite length_map, allocate_all_visible. reflexivity.
Qed.

(** ** Exceptions at the top level *)

Lemma check_no_pref_int (preferences : list IntSubjects.pyset) :
  IntSubjects.check_if_no_pref_then_return_None preferences = true
  <-> In [] preferences.
Proof.
  unfold IntSubjects.check_if_no_pref_then_return_None.
  rewrite existsb_exists. split.
  - intros [p [Hin Hp]]. destruct p; [exact Hin | discriminate].
  - intro H. exists []. split; [exact H | reflexivity].
Qed.

Lemma legal_heads (s : nat) (preferences : list IntSubjects.pyset) :
  ~ In [] preferences ->
  IntSubjects.legal_preferences s preferences ->
  Forall (IntSubjects.legal_head s) preferences.
Proof.
  intros Hne Hv. unfold IntSubjects.legal_preferences in Hv.
  rewrite Forall_forall in *. intros p Hp.
  destruct p as [|x r]; [contradiction|].
  exists x, r. split; [reflexivity|].
  specialize (Hv _ Hp). inversion Hv; assumption.
Qed.

(** X5. With float budgets and subjects that are arbitrary Python ints,
    [find_decomposition] raises exactly when no preference set is empty
    and some preferred subject [k] is not a legal index,
    [-len(budget) <= k < len(budget)]; the exception is [IndexError],
    raised by the basic-case detector.  On every other input it returns a
    matrix or the sentinel: the basic-case constructor and the general
    path raise nothing once the detector has returned. *)
Theorem find_decomposition_raises (budget : list Q)
  (preferences : list IntSubjects.pyset) (e : exn) :
  IntSubjects.find_decomposition budget preferences = Raise e <->
  e = IndexError /\ ~ In [] preferences /\
  ~ IntSubjects.legal_preferences (length budget) preferences.
Proof.
  unfold IntSubjects.find_decomposition.
  destruct (IntSubjects.check_if_no_pref_then_return_None preferences) eqn:Hc.
  - apply check_no_pref_int in Hc. split.
    + discriminate.
    + intros [_ [Hn _]]. contradiction.
  - assert (Hne : ~ In [] preferences).
    { intro Hin. apply check_no_pref_int in Hin. congruence. }
    destruct (is_basic_case_func_int budget preferences)
      as [[Hv [b Hb]] | [Hv Hb]]; rewrite Hb; cbn [bind].
    + split; [|tauto]. intro H. exfalso. destruct b.
      * rewrite (proj2 (@calc_decomposition_int budget preferences _)
                   (conj (legal_heads Hne Hv) eq_refl)) in H.
        discriminate H.
      * rewrite general_case_visible, general_case_ok in H. discriminate H.
    + split.
      * intro H. inversion H; subst. auto.
      * intros [-> _]. reflexivity.
Qed.

Lemma find_decomposition_raises_witness :
  IntSubjects.find_decomposition [5; 5] [[-3]; [0]]%Z = Raise IndexError.
Proof.
  apply (proj2 (@find_decomposition_raises [5; 5] [[-3]; [0]]%Z IndexError)).
  split; [reflexivity|]. split.
  - intros [H|[H|[]]]; discriminate H.
  - intro H. inversion H as [|? ? Hp _]; subst.
    inversion Hp as [|? ? Hr _]; subst.
    unfold IntSubjects.in_range in Hr. simpl in Hr. lia.
Defined.

(** ** Agreement with the embedding over natural-number subjects

    On preference sets without negative elements the program over Python
    ints is the program over natural numbers: the first embedding is its
    restriction to non-negative subjects. *)

Lemma position_of_nat (len p : nat) :
  position len (Z.of_nat p) = if p <? len then Some p else None.
Proof.
  unfold position.
  destruct (Z.leb_spec 0 (Z.of_nat p)) as [_|H]; [|lia].
  destruct (Z.ltb_spec (Z.of_nat p) (Z.of_nat len)) as [H1|H1];
    destruct (Nat.ltb_spec p len) as [H2|H2]; try lia.
  - rewrite Nat2Z.id. reflexivity.
  - reflexivity.
Qed.

Lemma py_index_of_nat (A : Type) (l : list A) (p : nat) :
  py_index l (Z.of_nat p) = index l p.
Proof.
  unfold py_index. rewrite position_of_nat.
  destruct (Nat.ltb_spec p (length l)) as [H|H]; [reflexivity|].
  unfold index. rewrite (proj2 (nth_error_None l p)) by exact H. reflexivity.
Qed.

Lemma py_store_of_nat (A : Type) (l : list A) (p : nat) (a : A) :
  py_store l (Z.of_nat p) a = store l p a.
Proof.
  unfold py_store, store. rewrite position_of_nat.
  destruct (p <? length l) eqn:E; [rewrite E|]; reflexivity.
Qed.

Lemma count_citizen_of_nat (ps : pyset) :
  forall c, IntSubjects.count_citizen (map Z.of_nat ps) c = count_citizen ps c.
Proof.
  induction ps as [|p ps IH]; intro c; simpl.
  - reflexivity.
  - rewrite py_index_of_nat. destruct (index c p) as [x|e]; simpl; [|reflexivity].
    rewrite py_store_of_nat. destruct (store c p (x + 1)%nat); simpl;
      [apply IH | reflexivity].
Qed.

Lemma count_all_of_nat (preferences : list pyset) :
  forall c,
    IntSubjects.count_all (map (map Z.of_nat) preferences) c
    = count_all preferences c.
Proof.
  induction preferences as [|p ps IH]; intro c; simpl.
  - reflexivity.
  - rewrite count_citizen_of_nat.
    destruct (count_citizen p c); simpl; [apply IH | reflexivity].
Qed.

Lemma basic_loop_of_nat (budget : list Q) (ps : list pyset) :
  forall (idx : list nat) (d : matrix),
    IntSubjects.basic_loop budget (combine idx (map (map Z.of_nat) ps)) d
    = basic_loop budget (combine idx ps) d.
Proof.
  induction ps as [|p ps IH]; intros idx d.
  - destruct idx; reflexivity.
  - destruct idx as [|i idx]; [reflexivity|]. simpl.
    destruct p as [|x r]; simpl; [reflexivity|].
    rewrite py_index_of_nat. destruct (index budget x); simpl; [|reflexivity].
    destruct (index d i) as [row|e]; simpl; [|reflexivity].
    rewrite py_store_of_nat. destruct (store row x a); simpl;
      [apply IH | reflexivity].
Qed.

Lemma visible_of_nat (p : pyset) : IntSubjects.visible (map Z.of_nat p) = p.
Proof.
  unfold IntSubjects.visible. induction p as [|x p IH]; simpl.
  - reflexivity.
  - destruct (Z.leb_spec 0 (Z.of_nat x)) as [_|H]; [|lia].
    simpl. rewrite Nat2Z.id, IH. reflexivity.
Qed.

Lemma int_subjects_agree (budget : list Q) (preferences : list pyset) :
  IntSubjects.find_decomposition budget (map (map Z.of_nat) preferences)
  = find_decomposition budget preferences.
Proof.
  unfold IntSubjects.find_decomposition, find_decomposition.
  assert (Hc : IntSubjects.check_if_no_pref_then_return_None
                 (map (map Z.of_nat) preferences)
               = check_if_no_pref_then_return_None preferences).
  { unfold IntSubjects.check_if_no_pref_then_return_None,
      check_if_no_pref_then_return_None.
    induction preferences as [|p ps IH]; simpl; [reflexivity|].
    rewrite length_map, IH. reflexivity. }
  rewrite Hc. destruct (check_if_no_pref_then_return_None preferences);
    [reflexivity|].
  assert (Hb : IntSubjects.is_basic_case_func budget
                 (map (map Z.of_nat) preferences)
               = is_basic_case_func budget preferences).
  { unfold IntSubjects.is_basic_case_func, is_basic_case_func.
    rewrite count_all_of_nat, length_map. reflexivity. }
  rewrite Hb. destruct (is_basic_case_func budget preferences) as [[|]|e];
    simpl; [| |reflexivity].
  - unfold IntSubjects.calc_decomposition_for_basic_case,
      calc_decomposition_for_basic_case, enumerate.
    rewrite !length_map, basic_loop_of_nat. reflexivity.
  - rewrite general_case_visible, map_map.
    rewrite (map_ext _ (fun p => p) visible_of_nat), map_id. reflexivity.
Qed.

(** * Binary64 arithmetic *)

(** In binary64 a successful call of [allocate_budget_for_subject] can
    leave a row above the share: on [[0.3, 0, 0], [0, 0, 0]] with share
    0.85 the call for subject 1 (budget 0.7) returns True and row 0 then
    sums to 0.8500000000000001. *)
Lemma row_exceeds_share_in_binary64 :
  let share := snd (Float64.calculate_total_budget_and_share
                      Float64.budget_03_07_07 2) in
  let d := [[0x1.3333333333333p-2; 0; 0]; [0; 0; 0]]%float in
  forallb (fun r => PrimFloat.leb (Float64.sum r) share) d = true /\
  exists d' row,
    Float64.allocate_budget_for_subject Float64.budget_03_07_07
      [[0; 1; 2]; [0; 1; 2]]%nat 1 share d = Ok (true, d') /\
    nth_error d' 0 = Some row /\
    PrimFloat.ltb share (Float64.sum row) = true.
Proof.
  split; [vm_compute; reflexivity|].
  eexists. eexists.
  split; [vm_compute; reflexivity|].
  split; [reflexivity|].
  vm_compute. reflexivity.
Qed.
